(** * Pointer-driven geometry editing: ellipse rubber band and line editor

    A shallow embedding of the two Svelte components of the plugin:

    - the ellipse rubber-band tool ([RubberbandEllipse]): the handlers
      [onPointerDown], [updateShape], [onPointerUp] and [stopDrawing];
    - the line editor ([LineEditor]): the reactive [midpoints] list and the
      handlers [onHandlePointerDown], [onHandlePointerUp], [editor],
      [onAddPoint] and [onDeleteSelected].

    Modelling conventions.

    - In the ellipse tool a coordinate or an extent is a binary64 double
      (a primitive [float]): the tool's tests ([w * h > 15]) and the
      rectangle it assigns are decided by the rounded operations, and
      [Math.abs], [Math.min], [Math.max] and [>] follow IEEE 754 and
      ECMAScript on NaN and on signed zeros.  Statements there use
      Leibniz equality on doubles.
    - In the line editor a coordinate is an exact rational ([Q]); its
      theorems concern the structure of lists, the selection, and results
      that are equated with the code's own formulas.  Statements about
      arithmetic are up to [Qeq] ([==]); statements that a value is copied
      or left alone use Leibniz equality.
    - A time stamp is an exact rational: the rounding of the one
      subtraction [performance.now() - last] is not modelled.
    - A variable that may be [undefined] is an [option].
    - The component's [let] variables form a state record; each handler is
      a function from the state to the new state and the list of effects it
      performed (events dispatched, propagation stopped).
    - [performance.now()] is an argument [now] of the handler that reads it.
    - A handler that can throw a [TypeError] returns an outcome: it either
      returned, or threw and left the state as it was at the throw.
    - Reading past the end of an array inside a reduction ends it with
      [None].
    - Props and imported collaborators ([transform.elementToImage],
      [boundsFromPoints], [Math.sqrt], [isTouch], [viewportScale]) are
      section variables.

    After the two components come the event loop of the ellipse tool, the
    hover and keyboard handlers of the line editor, and the properties of
    whole gestures and sessions. *)

From Stdlib Require Import Floats.
From Stdlib Require Import QArith Qabs Qminmax Lqa.
From Stdlib Require Import ZArith Lia Bool String DecimalString List.
From Stdlib Require Import DecimalNat.
Import ListNotations.

Open Scope Q_scope.

(** ** Numbers *)

Module Num.

(** [a > b] on numbers, as a boolean. *)
Definition gtb (a b : Q) : bool := negb (Qle_bool a b).

End Num.

(** Doubles, with the operations of JavaScript the ellipse tool uses. *)

Module JS.

(** [a > b]: false as soon as one side is NaN. *)
Definition gtb (a b : float) : bool := PrimFloat.ltb b a.

(** [Math.abs(a)] *)
Definition abs (a : float) : float := PrimFloat.abs a.

(** The double [-0]. *)
Definition isNegativeZero (a : float) : bool :=
  PrimFloat.is_zero a && PrimFloat.get_sign a.

(** [Math.min(a, b)]: NaN if either argument is NaN, and [-0] counts as
    smaller than [+0]. *)
Definition min (a b : float) : float :=
  if PrimFloat.is_nan a || PrimFloat.is_nan b then PrimFloat.nan
  else if PrimFloat.ltb a b then a
  else if PrimFloat.ltb b a then b
  else if isNegativeZero a then a else b.

(** [Math.max(a, b)]: NaN if either argument is NaN, and [+0] counts as
    larger than [-0]. *)
Definition max (a b : float) : float :=
  if PrimFloat.is_nan a || PrimFloat.is_nan b then PrimFloat.nan
  else if PrimFloat.ltb b a then a
  else if PrimFloat.ltb a b then b
  else if isNegativeZero a then b else a.

End JS.

(** A point is the two-element array [[x, y]]. *)
Definition Point : Type := (Q * Q)%type.

Record Bounds : Type := mkBounds {
  minX : Q;
  minY : Q;
  maxX : Q;
  maxY : Q
}.

Inductive ShapeType : Type := ELLIPSE | LINE.

(** ** The ellipse rubber-band tool *)

Module RubberbandEllipse.

Inductive DrawingMode : Type := drag | click.

(** A point of the image: the array [[x, y]] of two doubles. *)
Definition Point : Type := (float * float)%type.

(** The part of a [PointerEvent] the tool reads. *)
Record PointerEvent : Type := mkPointerEvent {
  offsetX : float;
  offsetY : float
}.

Record Bounds : Type := mkBounds {
  minX : float;
  minY : float;
  maxX : float;
  maxY : float
}.

Record EllipseGeometry : Type := mkEllipseGeometry {
  bounds : Bounds;
  cx : float;
  cy : float;
  rx : float;
  ry : float
}.

Record Ellipse : Type := mkEllipse {
  type : ShapeType;
  geometry : EllipseGeometry
}.

(** What a handler does besides updating the component's variables. *)
Inductive Effect : Type :=
| Create (shape : Ellipse)      (* dispatch('create', shape) *)
| StopPropagation.              (* evt.stopPropagation() *)

(** The component's [let] variables.  [x], [y], [w], [h] are declared
    without a value and are assigned whenever [origin] is. *)
Record State : Type := mkState {
  origin : option Point;
  anchor : option Point;
  x : float;
  y : float;
  w : float;
  h : float;
  isShiftPressed : bool;
  isCtrlPressed : bool;
  lastPointerDown : option Q;
  lastMoveEvent : option PointerEvent
}.

Definition set_lastPointerDown (t : Q) (s : State) : State :=
  mkState (origin s) (anchor s) (x s) (y s) (w s) (h s)
          (isShiftPressed s) (isCtrlPressed s) (Some t) (lastMoveEvent s).

Definition set_lastMoveEvent (e : option PointerEvent) (s : State) : State :=
  mkState (origin s) (anchor s) (x s) (y s) (w s) (h s)
          (isShiftPressed s) (isCtrlPressed s) (lastPointerDown s) e.

Definition set_isShiftPressed (b : bool) (s : State) : State :=
  mkState (origin s) (anchor s) (x s) (y s) (w s) (h s)
          b (isCtrlPressed s) (lastPointerDown s) (lastMoveEvent s).

Definition set_isCtrlPressed (b : bool) (s : State) : State :=
  mkState (origin s) (anchor s) (x s) (y s) (w s) (h s)
          (isShiftPressed s) b (lastPointerDown s) (lastMoveEvent s).

(** [origin = p; anchor = origin; x = origin[0]; y = origin[1]; w = 1; h = 1] *)
Definition startAt (p : Point) (s : State) : State :=
  mkState (Some p) (Some p) (fst p) (snd p) 1%float 1%float
          (isShiftPressed s) (isCtrlPressed s) (lastPointerDown s)
          (lastMoveEvent s).

(** [anchor = a] together with the rectangle computed from it. *)
Definition set_rect (a : Point) (x' y' w' h' : float) (s : State) : State :=
  mkState (origin s) (Some a) x' y' w' h'
          (isShiftPressed s) (isCtrlPressed s) (lastPointerDown s)
          (lastMoveEvent s).

(** [origin = undefined; anchor = undefined; lastMoveEvent = undefined] *)
Definition reset (s : State) : State :=
  mkState None None (x s) (y s) (w s) (h s)
          (isShiftPressed s) (isCtrlPressed s) (lastPointerDown s) None.

(** The state after mounting.  [x], [y], [w], [h] hold [undefined], which
    arithmetic turns into NaN. *)
Definition initial : State :=
  mkState None None PrimFloat.nan PrimFloat.nan PrimFloat.nan PrimFloat.nan
          false false None None.

(** How a call of [updateShape] or of a key handler ends. *)
Inductive Outcome : Type :=
| Returned (s : State)
| Threw (s : State).

(** The shape literal of [stopDrawing] for the rectangle [(x, y, w, h)]. *)
Definition ellipseFrom (x y w h : float) : Ellipse :=
  {| type := ELLIPSE;
     geometry :=
       {| bounds := {| minX := x; minY := y;
                       maxX := (x + w)%float; maxY := (y + h)%float |};
          cx := (x + w / 2)%float;
          cy := (y + h / 2)%float;
          rx := (w / 2)%float;
          ry := (h / 2)%float |} |}.

Definition ellipseOf (s : State) : Ellipse :=
  ellipseFrom (x s) (y s) (w s) (h s).

Section Tool.

(** Props: [transform.elementToImage] and [drawingMode]. *)
Variable elementToImage : float -> float -> Point.
Variable drawingMode : DrawingMode.

Definition is_drag : bool :=
  match drawingMode with drag => true | click => false end.

Definition is_click : bool :=
  match drawingMode with click => true | drag => false end.

Definition onPointerDown (evt : PointerEvent) (now : Q) (s : State) : State :=
  let s := set_lastPointerDown now s in
  if is_drag
  then startAt (elementToImage (offsetX evt) (offsetY evt)) s
  else s.

(** [(maybeEvent as PointerEvent) || lastMoveEvent] *)
Definition eventInUse (maybeEvent : option PointerEvent) (s : State)
  : option PointerEvent :=
  match maybeEvent with
  | Some e => Some e
  | None => lastMoveEvent s
  end.

(** The rectangle [(x, y, w, h)] that [updateShape] assigns for origin [o]
    and anchor [a] under the two modifier keys. *)
Definition rubberBand (shift ctrl : bool) (o a : Point)
  : float * float * float * float :=
  if ctrl then
    let mw := (2 * JS.abs (fst a - fst o))%float in
    let mh := (2 * JS.abs (snd a - snd o))%float in
    let w' := if shift then JS.max mw mh else mw in
    let h' := if shift then w' else mh in
    let x' := JS.min (fst a) (fst o - w' / 2)%float in
    let y' := JS.min (snd a) (snd o - h' / 2)%float in
    (x', y', w', h')
  else
    let mw := JS.abs (fst a - fst o)%float in
    let mh := JS.abs (snd a - snd o)%float in
    let w' := if shift then JS.max mw mh else mw in
    let h' := if shift then w' else mh in
    let x' := JS.min (fst a) (fst o) in
    let y' := JS.min (snd a) (snd o) in
    (x', y', w', h').

(** [updateShape]: with [origin] defined and no event to read,
    [evt!.offsetX] throws and nothing is assigned. *)
Definition updateShape (maybeEvent : option PointerEvent) (s : State)
  : Outcome :=
  let evt := eventInUse maybeEvent s in
  let keep (s' : State) :=
    match maybeEvent with
    | Some e => set_lastMoveEvent (Some e) s'
    | None => s'
    end in
  match origin s with
  | Some o =>
      match evt with
      | Some e =>
          let a := elementToImage (offsetX e) (offsetY e) in
          let '(x', y', w', h') :=
            rubberBand (isShiftPressed s) (isCtrlPressed s) o a in
          Returned (keep (set_rect a x' y' w' h' s))
      | None => Threw s
      end
  | None => Returned (keep s)
  end.

(** [stopDrawing]: the product [w * h] is the rounded product of two
    doubles. *)
Definition stopDrawing (s : State) : State * list Effect :=
  let out :=
    if JS.gtb (w s * h s)%float 15%float then [Create (ellipseOf s)] else [] in
  (reset s, out).

(** [performance.now() - lastPointerDown > limit]; the difference is NaN,
    and the comparison false, while [lastPointerDown] is unassigned. *)
Definition elapsedOver (limit now : Q) (s : State) : bool :=
  match lastPointerDown s with
  | Some t => Num.gtb (now - t) limit
  | None => false
  end.

Definition onPointerUp (evt : PointerEvent) (now : Q) (s : State)
  : State * list Effect :=
  if is_click then
    if elapsedOver 300 now s then (s, [])
    else
      match origin s with
      | Some _ => stopDrawing s
      | None => (startAt (elementToImage (offsetX evt) (offsetY evt)) s, [])
      end
  else
    match origin s with
    | Some _ =>
        if elapsedOver 300 now s || JS.gtb (w s * h s)%float 100%float
        then let '(s', out) := stopDrawing s in (s', StopPropagation :: out)
        else (reset s, [])
    | None => (s, [])
    end.

(** The key handlers: a key other than Shift or Control does nothing. *)
Inductive Key : Type := Shift | Control | OtherKey.

Definition onKeyDown (k : Key) (s : State) : Outcome :=
  match k with
  | Shift => updateShape None (set_isShiftPressed true s)
  | Control => updateShape None (set_isCtrlPressed true s)
  | OtherKey => Returned s
  end.

Definition onKeyUp (k : Key) (s : State) : Outcome :=
  match k with
  | Shift => updateShape None (set_isShiftPressed false s)
  | Control => updateShape None (set_isCtrlPressed false s)
  | OtherKey => Returned s
  end.

End Tool.

End RubberbandEllipse.

(** ** Array helpers

    The callbacks of [Array.prototype.map], [filter] and [reduce] receive the
    element and its index; the helpers below thread the index. *)

Module Arr.

Section Indexed.
Context {A B : Type}.

(** [l.map((a, idx) => f a idx)], the first index being [k]. *)
Fixpoint mapi_from (f : A -> nat -> B) (k : nat) (l : list A) : list B :=
  match l with
  | [] => []
  | a :: r => f a k :: mapi_from f (S k) r
  end.

(** [l.filter((a, idx) => f a idx)], the first index being [k]. *)
Fixpoint filteri_from (f : A -> nat -> bool) (k : nat) (l : list A) : list A :=
  match l with
  | [] => []
  | a :: r =>
      if f a k then a :: filteri_from f (S k) r else filteri_from f (S k) r
  end.

(** [l.reduce((acc, a, idx) => f acc a idx, acc)], the first index being
    [k]; a callback that throws ([None]) ends the reduction. *)
Fixpoint reduce_from (f : B -> A -> nat -> option B) (k : nat) (l : list A)
         (acc : B) : option B :=
  match l with
  | [] => Some acc
  | a :: r =>
      match f acc a k with
      | Some acc' => reduce_from f (S k) r acc'
      | None => None
      end
  end.
End Indexed.

Definition mapi {A B : Type} (f : A -> nat -> B) (l : list A) : list B :=
  mapi_from f 0 l.

Definition filteri {A : Type} (f : A -> nat -> bool) (l : list A) : list A :=
  filteri_from f 0 l.

Definition reduce {A B : Type} (f : B -> A -> nat -> option B) (l : list A)
           (acc : B) : option B :=
  reduce_from f 0 l acc.

(** [l.includes(i)] on an array of indices. *)
Definition includes (l : list nat) (i : nat) : bool := existsb (Nat.eqb i) l.

(** [l.slice(0, k)] and [l.slice(k)] for an index [k >= 0]. *)
Definition slice_to {A : Type} (k : nat) (l : list A) : list A := firstn k l.
Definition slice_from {A : Type} (k : nat) (l : list A) : list A := skipn k l.

End Arr.

(** ** The line editor

    [onPointerMove], which only chooses the midpoint to display, and the
    part of [onAddPoint] that runs after the change event is dispatched
    (it forwards the pointer-down to the new handle in the DOM) are not
    modelled. *)

Module LineEditor.

(** Time difference (milliseconds) required for registering a click/tap *)
Definition CLICK_THRESHOLD : Q := 250.

(** Minimum distance (px) between corners required for midpoints to show *)
Definition MIN_CORNER_DISTANCE : Q := 12.

Record LineGeometry : Type := mkLineGeometry {
  bounds : Bounds;
  points : list Point
}.

Record Line : Type := mkLine {
  type : ShapeType;
  geometry : LineGeometry
}.

(** The modifier keys of a [PointerEvent]. *)
Record PointerEvent : Type := mkPointerEvent {
  metaKey : bool;
  ctrlKey : bool;
  shiftKey : bool
}.

Record Midpoint : Type := mkMidpoint {
  point : Point;
  visible : bool
}.

Inductive Effect : Type :=
| Change (shape : Line)         (* dispatch('change', shape) *)
| StopPropagation               (* evt.stopPropagation() *)
| PreventDefault                (* evt.preventDefault() *)
| ReclaimFocus.                 (* reclaimFocus() *)

(** The prop [shape] and the component's [let] variables. *)
Record State : Type := mkState {
  shape : Line;
  visibleMidpoint : option nat;
  isHandleHovered : bool;
  lastHandleClick : option Q;
  selectedCorners : list nat
}.

Definition set_selectedCorners (sel : list nat) (s : State) : State :=
  mkState (shape s) (visibleMidpoint s) (isHandleHovered s)
          (lastHandleClick s) sel.

(** [$: geom = shape.geometry] *)
Definition geom (s : State) : LineGeometry := geometry (shape s).

(** [{ ...line, geometry: { bounds, points } }] *)
Definition with_geometry (line : Line) (g : LineGeometry) : Line :=
  mkLine (type line) g.

(** The identifier [`HANDLE-${idx}`]. *)
Definition handleId (idx : nat) : string :=
  ("HANDLE-" ++ NilEmpty.string_of_uint (Nat.to_uint idx))%string.

Section Editor.

(** Imports and props: [isTouch], [Math.sqrt], [boundsFromPoints],
    [viewportScale]. *)
Variable isTouch : bool.
Variable sqrt : Q -> Q.
Variable boundsFromPoints : list Point -> Bounds.
Variable viewportScale : Q.

(** The callback of the [reduce] that builds [midpoints]; reading a
    corner past the end of [pts] would throw.  [viewportScale] is the
    positive zoom factor of the viewer: a division by zero, which yields 0
    here and Infinity in JavaScript, would only show in [visible], and so
    would the rounding of the distance, which is exact here. *)
Definition midpointStep (pts : list Point) (acc : list Midpoint)
           (thisCorner : Point) (idx : nat) : option (list Midpoint) :=
  if Nat.eqb idx (length pts - 1) then Some acc
  else
    match nth_error pts (idx + 1) with
    | Some nextCorner =>
        let x := (fst thisCorner + fst nextCorner) / 2 in
        let y := (snd thisCorner + snd nextCorner) / 2 in
        let dist :=
          sqrt ((fst nextCorner - x) ^ 2 + (snd nextCorner - y) ^ 2) in
        let visible := Num.gtb dist (MIN_CORNER_DISTANCE / viewportScale) in
        Some (acc ++ [ {| point := (x, y); visible := visible |} ])
    | None => None
    end.

(** [$: midpoints = isTouch ? [] : geom.points.reduce(..., [])] *)
Definition midpoints (s : State) : option (list Midpoint) :=
  if isTouch then Some []
  else Arr.reduce (midpointStep (points (geom s))) (points (geom s)) [].

Definition onLinePointerUp (s : State) : State * list Effect :=
  (set_selectedCorners [] s, [ReclaimFocus]).

Definition onHandlePointerDown (now : Q) (s : State) : State * list Effect :=
  (mkState (shape s) (visibleMidpoint s) true (Some now) (selectedCorners s),
   [PreventDefault; StopPropagation]).

(** [!lastHandleClick]: the variable is undefined or zero. *)
Definition noHandleClick (s : State) : bool :=
  match lastHandleClick s with
  | Some t => Qeq_bool t 0
  | None => true
  end.

(** [performance.now() - lastHandleClick > CLICK_THRESHOLD] *)
Definition isDrag (now : Q) (s : State) : bool :=
  match lastHandleClick s with
  | Some t => Num.gtb (now - t) CLICK_THRESHOLD
  | None => false
  end.

Definition onHandlePointerUp (idx : nat) (evt : PointerEvent) (now : Q)
           (s : State) : State * list Effect :=
  if noHandleClick s || isTouch then (s, [])
  else if isDrag now s then (s, [])
  else
    let isSelected := Arr.includes (selectedCorners s) idx in
    let sel :=
      if metaKey evt || ctrlKey evt || shiftKey evt then
        if isSelected
        then filter (fun i => negb (Nat.eqb i idx)) (selectedCorners s)
        else selectedCorners s ++ [idx]
      else
        if isSelected && Nat.ltb 1 (length (selectedCorners s)) then [idx]
        else if isSelected then []
        else [idx] in
    (set_selectedCorners sel s, [ReclaimFocus]).

Definition translate (dx dy : Q) (p : Point) : Point :=
  (fst p + dx, snd p + dy).

Definition editor (s : State) (line : Line) (handle : string)
           (delta : Q * Q) : Line :=
  let g := geometry line in
  let '(dx, dy) := delta in
  let pts :=
    if Nat.ltb 1 (length (selectedCorners s)) then
      Arr.mapi (fun p idx =>
        if Arr.includes (selectedCorners s) idx then translate dx dy p else p)
        (points g)
    else if String.eqb handle "LINE" then
      Arr.mapi (fun p _ => translate dx dy p) (points g)
    else
      Arr.mapi (fun p idx =>
        if String.eqb handle (handleId idx) then translate dx dy p else p)
        (points g) in
  with_geometry line {| bounds := boundsFromPoints pts; points := pts |}.

(** [onAddPoint], up to the dispatch of the change event.  The new point
    is [midpoints[insertionIndex]?.point ?? point]; when both are
    undefined the array is not an array of points and no event is
    modelled. *)
Definition onAddPoint (insertionIndex : nat) (point' : option Point)
           (s : State) : option (list Effect) :=
  match midpoints s with
  | None => None
  | Some ms =>
      let inserted :=
        match nth_error ms insertionIndex with
        | Some m => Some (point m)
        | None => point'
        end in
      match inserted with
      | None => None
      | Some p =>
          let pts :=
            Arr.slice_to (insertionIndex + 1) (points (geom s))
              ++ [p]
              ++ Arr.slice_from (insertionIndex + 1) (points (geom s)) in
          Some [StopPropagation;
                Change (with_geometry (shape s)
                          {| points := pts;
                             bounds := boundsFromPoints pts |})]
      end
  end.

Definition onDeleteSelected (s : State) : State * list Effect :=
  if Z.ltb (Z.of_nat (length (points (geom s)))
            - Z.of_nat (length (selectedCorners s))) 2
  then (s, [])
  else
    let pts :=
      Arr.filteri (fun _ i => negb (Arr.includes (selectedCorners s) i))
                  (points (geom s)) in
    (set_selectedCorners [] s,
     [Change (with_geometry (shape s)
                {| points := pts; bounds := boundsFromPoints pts |})]).

End Editor.

End LineEditor.

(** ** Specification vocabulary *)

Module LineSpec.

(** The points that remain once the corners at the selected indices are
    removed: the points paired with their positions, those at a selected
    position dropped. *)
Definition remainingPoints (sel : list nat) (pts : list Point) : list Point :=
  map snd (filter (fun ip => negb (Arr.includes sel (fst ip)))
                  (combine (seq 0 (length pts)) pts)).

End LineSpec.

(** ** Concrete inputs

    Instances of the collaborators and a few component states, on which the
    theorems below are exercised. *)

Module Samples.


(** The square root rounded down to a multiple of [1 / Qden q]. *)
Definition approxSqrt (q : Q) : Q :=
  Z.sqrt (Qnum q * Zpos (Qden q)) # Qden q.

(** The bounding box of a list of points; the empty list gets the empty
    box at the origin. *)
Definition boxOf (pts : list Point) : Bounds :=
  match pts with
  | [] => mkBounds 0 0 0 0
  | p :: r =>
      fold_left
        (fun b q => mkBounds (Qmin (minX b) (fst q)) (Qmin (minY b) (snd q))
                             (Qmax (maxX b) (fst q)) (Qmax (maxY b) (snd q)))
        r (mkBounds (fst p) (snd p) (fst p) (snd p))
  end.

(** A transform of the ellipse tool that maps element coordinates to
    themselves. *)
Definition pixelsOf (ex ey : float) : RubberbandEllipse.Point := (ex, ey).

(** A drag that started at [(10, 10)] at time 1000, before any pointer
    move. *)
Definition dragging (shift ctrl : bool) : RubberbandEllipse.State :=
  RubberbandEllipse.mkState (Some (10, 10)%float) (Some (10, 10)%float)
                            10 10 1 1 shift ctrl (Some 1000) None.

Definition moveTo (ex ey : float) : RubberbandEllipse.PointerEvent :=
  RubberbandEllipse.mkPointerEvent ex ey.

(** A three-point polyline with the corners 0 and 2 selected. *)
Definition zigzag : LineEditor.State :=
  LineEditor.mkState
    (LineEditor.mkLine LINE
       (LineEditor.mkLineGeometry (mkBounds 0 0 80 60)
                                  [(0, 0); (40, 60); (80, 0)]))
    None false None [0%nat; 2%nat].

End Samples.

(** ** The ellipse tool as an event loop

    [onMount] registers [onPointerDown], [updateShape] and [onPointerUp]
    for the pointer events of the layer and [onKeyDown], [onKeyUp] for the
    keys of the document; a handler that throws leaves the state as it was
    at the throw and the loop goes on with the next event. *)

Module RubberbandEllipseRun.
Import RubberbandEllipse.

Inductive Event : Type :=
| PointerDown (evt : PointerEvent) (now : Q)
| PointerMove (evt : PointerEvent)
| PointerUp (evt : PointerEvent) (now : Q)
| KeyDown (k : Key)
| KeyUp (k : Key).

(** The state a handler leaves behind, however it ended. *)
Definition settle (o : Outcome) : State :=
  match o with
  | Returned s => s
  | Threw s => s
  end.

Section Loop.

Variable elementToImage : float -> float -> Point.
Variable drawingMode : DrawingMode.

Definition dispatchEvent (ev : Event) (s : State) : State * list Effect :=
  match ev with
  | PointerDown evt now => (onPointerDown elementToImage drawingMode evt now s, [])
  | PointerMove evt => (settle (updateShape elementToImage (Some evt) s), [])
  | PointerUp evt now => onPointerUp elementToImage drawingMode evt now s
  | KeyDown k => (settle (onKeyDown elementToImage k s), [])
  | KeyUp k => (settle (onKeyUp elementToImage k s), [])
  end.

(** The events of a session in order, with everything the tool did. *)
Fixpoint run (evs : list Event) (s : State) : State * list Effect :=
  match evs with
  | [] => (s, [])
  | ev :: rest =>
      let '(s1, out1) := dispatchEvent ev s in
      let '(s2, out2) := run rest s1 in
      (s2, out1 ++ out2)
  end.

End Loop.

(** [origin] and [anchor] are defined together. *)
Definition wellFormed (s : State) : Prop :=
  match origin s, anchor s with
  | Some _, Some _ => True
  | None, None => True
  | _, _ => False
  end.

End RubberbandEllipseRun.

(** ** The line editor: hovering, the keyboard and the host

    [onPointerMove] picks the midpoint to display.  It finds the position
    of the chosen midpoint with [indexOf], which compares object
    identities; every entry of [midpoints] is a fresh object, so each
    midpoint is modelled together with its position in the array. *)

Module LineEditorHover.
Import LineEditor.

(** Minimum distance (px) to shape required for midpoints to show *)
Definition MIN_HOVER_DISTANCE : Q := 1000.

(** The part of a [PointerEvent] that [onPointerMove] reads. *)
Record MoveEvent : Type := mkMoveEvent {
  offsetX : Q;
  offsetY : Q
}.

(** [a < b] on numbers, as a boolean. *)
Definition ltb (a b : Q) : bool := negb (Qle_bool b a).

(** [l.reduce(f)] without an initial value: the first element starts the
    reduction, and the empty array throws. *)
Definition reduce1 {A : Type} (f : A -> A -> A) (l : list A) : option A :=
  match l with
  | [] => None
  | a :: r => Some (fold_left f r a)
  end.

(** [Math.pow(pt[0] - px, 2) + Math.pow(pt[1] - py, 2)] *)
Definition getDistSq (px py : Q) (pt : Point) : Q :=
  (fst pt - px) ^ 2 + (snd pt - py) ^ 2.

Definition set_visibleMidpoint (v : option nat) (s : State) : State :=
  mkState (shape s) v (isHandleHovered s) (lastHandleClick s)
          (selectedCorners s).


(** The midpoints with their positions. *)
Definition indexed (ms : list Midpoint) : list (nat * Midpoint) :=
  combine (seq 0 (length ms)) ms.

Section Hover.

Variable isTouch : bool.
Variable sqrt : Q -> Q.
Variable viewportScale : Q.
Variable elementToImage : Q -> Q -> Point.

Definition onPointerMove (evt : MoveEvent) (s : State) : option State :=
  match midpoints isTouch sqrt viewportScale s with
  | None => None
  | Some ms =>
      if Nat.ltb 0 (length (selectedCorners s)) || negb (existsb visible ms)
      then Some (set_visibleMidpoint None s)
      else
        let '(px, py) := elementToImage (offsetX evt) (offsetY evt) in
        let closestCorner :=
          reduce1 (fun closest corner =>
                     if ltb (getDistSq px py corner) (getDistSq px py closest)
                     then corner else closest)
                  (points (geom s)) in
        let closestVisibleMidpoint :=
          reduce1 (fun closest midpoint =>
                     if ltb (getDistSq px py (point (snd midpoint)))
                            (getDistSq px py (point (snd closest)))
                     then midpoint else closest)
                  (filter (fun im => visible (snd im)) (indexed ms)) in
        match closestCorner, closestVisibleMidpoint with
        | Some corner, Some midpoint =>
            let threshold := (MIN_HOVER_DISTANCE / viewportScale) ^ 2 in
            let shouldShow :=
              ltb (getDistSq px py corner) threshold
              || ltb (getDistSq px py (point (snd midpoint))) threshold in
            Some (set_visibleMidpoint
                    (if shouldShow then Some (fst midpoint) else None) s)
        | _, _ => None
        end
  end.

End Hover.

(** The key listener that [onMount] registers unless the device is a touch
    device: Delete and Backspace delete the selected corners. *)
Definition onKeydown (isTouch : bool) (boundsFromPoints : list Point -> Bounds)
           (key : string) (s : State) : State * list Effect :=
  if isTouch then (s, [])
  else if String.eqb key "Delete" || String.eqb key "Backspace" then
    let '(s', out) := onDeleteSelected boundsFromPoints s in
    (s', PreventDefault :: out)
  else (s, []).

(** The host answers a change event by passing the new shape back as the
    [shape] prop; the component's variables keep their values. *)
Definition withShape (l : Line) (s : State) : State :=
  mkState l (visibleMidpoint s) (isHandleHovered s) (lastHandleClick s)
          (selectedCorners s).

End LineEditorHover.

(** ** More concrete inputs *)

Module MoreSamples.
Import Samples.

(** The drag of [Samples.dragging] after the pointer has moved to
    [(13, 4)]. *)
Definition dragged (shift ctrl : bool) : RubberbandEllipse.State :=
  RubberbandEllipseRun.settle
    (RubberbandEllipse.updateShape pixelsOf (Some (moveTo 13 4))
                                   (dragging shift ctrl)).

(** A drag from [(10, 10)] to [(40, 30)] that lasts 500 milliseconds. *)
Definition longDrag : list RubberbandEllipseRun.Event :=
  [RubberbandEllipseRun.PointerDown (moveTo 10 10) 1000;
   RubberbandEllipseRun.PointerMove (moveTo 40 30);
   RubberbandEllipseRun.PointerUp (moveTo 41 31) 1500].


(** A drawing in progress whose rectangle is [1.6666666666666667] wide
    and [9] high: the exact product is above 15, the product of the
    doubles is 15. *)
Definition thinRectangle : RubberbandEllipse.State :=
  RubberbandEllipse.mkState
    (Some (0, 0)%float) (Some (0x1.aaaaaaaaaaaabp+0, 9)%float)
    0 0 0x1.aaaaaaaaaaaabp+0 9 false false (Some 1000) None.

(** The polyline of [Samples.zigzag] with nothing selected. *)
Definition zigzagFree : LineEditor.State :=
  LineEditor.mkState (LineEditor.shape zigzag) None false None [].

(** [Samples.zigzag] after a pointer-down on a handle at time 1000. *)
Definition pressed : LineEditor.State :=
  fst (LineEditor.onHandlePointerDown 1000 zigzag).

Definition plainClick : LineEditor.PointerEvent :=
  LineEditor.mkPointerEvent false false false.

Definition shiftClick : LineEditor.PointerEvent :=
  LineEditor.mkPointerEvent false false true.

(** The two midpoints of the zigzag at viewport scale 1. *)
Definition zigzagMidpoints : list LineEditor.Midpoint :=
  [ LineEditor.mkMidpoint ((0 + 40) / 2, (0 + 60) / 2) true;
    LineEditor.mkMidpoint ((40 + 80) / 2, (60 + 0) / 2) true ].


End MoreSamples.

(** * Properties *)

(** ** Comparisons on numbers *)

Module NumFacts.


Lemma gtb_false (a b : Q) : Num.gtb a b = false <-> a <= b.
Proof.
  unfold Num.gtb. rewrite negb_false_iff. apply Qle_bool_iff.
Qed.

End NumFacts.

(** ** The ellipse rubber-band tool *)

Module RubberbandEllipseFacts.
Import RubberbandEllipse.

(** *** The rectangle arithmetic *)


Lemma rubberBand_shift_square (ctrl : bool) (o a : Point) :
  let '(_, _, w', h') := rubberBand true ctrl o a in
  h' = w' /\
  w' = JS.max
         (if ctrl then 2 * JS.abs (fst a - fst o) else JS.abs (fst a - fst o))
         (if ctrl then 2 * JS.abs (snd a - snd o) else JS.abs (snd a - snd o))
         %float.
Proof.
  destruct ctrl; unfold rubberBand; split; reflexivity.
Qed.

Lemma rubberBand_plain_bbox (o a : Point) :
  let '(x', y', w', h') := rubberBand false false o a in
  x' = JS.min (fst a) (fst o) /\ y' = JS.min (snd a) (snd o) /\
  w' = JS.abs (fst a - fst o)%float /\ h' = JS.abs (snd a - snd o)%float.
Proof.
  unfold rubberBand. repeat split; reflexivity.
Qed.

Section ToolFacts.

Variable elementToImage : float -> float -> Point.

(** *** What a returning [updateShape] has assigned *)

Lemma updateShape_drawing (maybeEvent : option PointerEvent) (s s' : State)
      (o : Point) :
  origin s = Some o ->
  updateShape elementToImage maybeEvent s = Returned s' ->
  exists e,
    eventInUse maybeEvent s = Some e /\
    origin s' = Some o /\
    anchor s' = Some (elementToImage (offsetX e) (offsetY e)) /\
    (x s', y s', w s', h s') =
      rubberBand (isShiftPressed s) (isCtrlPressed s) o
                 (elementToImage (offsetX e) (offsetY e)).
Proof.
  intros Ho Hu. unfold updateShape in Hu.
  rewrite Ho in Hu.
  destruct (eventInUse maybeEvent s) as [e |]; [| discriminate].
  exists e.
  destruct (rubberBand _ _ _ _) as [[[x' y'] w'] h'].
  injection Hu as <-.
  destruct maybeEvent; simpl; rewrite Ho; auto.
Qed.

(** [updateShape] returns as soon as there is an event to read. *)
Lemma updateShape_returns (maybeEvent : option PointerEvent) (s : State)
      (e : PointerEvent) :
  eventInUse maybeEvent s = Some e ->
  exists s', updateShape elementToImage maybeEvent s = Returned s'.
Proof.
  intro He. unfold updateShape. rewrite He.
  destruct (origin s); [| eauto].
  destruct (rubberBand _ _ _ _) as [[[x' y'] w'] h']. eauto.
Qed.


(** Every returning call under Shift leaves a square: [h] is [w], and
    both are the larger of the two axis extents [|anchor.x - origin.x|]
    and [|anchor.y - origin.y|], each doubled when Control is held too;
    the ellipse built from the rectangle has [rx = ry].  The call
    returns whenever there is a pointer event to read. *)
Lemma updateShape_shift_square
      (maybeEvent : option PointerEvent) (s : State) (o : Point) :
  origin s = Some o ->
  isShiftPressed s = true ->
  (forall s', updateShape elementToImage maybeEvent s = Returned s' ->
     exists a,
       anchor s' = Some a /\
       h s' = w s' /\
       w s' = JS.max
                (if isCtrlPressed s
                 then 2 * JS.abs (fst a - fst o) else JS.abs (fst a - fst o))
                (if isCtrlPressed s
                 then 2 * JS.abs (snd a - snd o) else JS.abs (snd a - snd o))
                %float /\
       rx (geometry (ellipseOf s')) = ry (geometry (ellipseOf s'))) /\
  (forall e, eventInUse maybeEvent s = Some e ->
             exists s', updateShape elementToImage maybeEvent s = Returned s' /\
                        anchor s' =
                          Some (elementToImage (offsetX e) (offsetY e))).
Proof.
  intros Ho Hs. split.
  - intros s' Hu.
    destruct (updateShape_drawing _ _ _ _ Ho Hu) as (e & _ & _ & Ha & Hr).
    exists (elementToImage (offsetX e) (offsetY e)).
    split; [exact Ha |].
    rewrite Hs in Hr.
    pose proof (rubberBand_shift_square (isCtrlPressed s) o
                  (elementToImage (offsetX e) (offsetY e))) as Hq.
    rewrite <- Hr in Hq. destruct Hq as [Hh Hw].
    repeat split; auto.
    cbn [rx ry geometry ellipseOf ellipseFrom]. rewrite Hh. reflexivity.
  - intros e He.
    destruct (updateShape_returns _ _ _ He) as [s' Hu].
    exists s'. split; [exact Hu |].
    destruct (updateShape_drawing _ _ _ _ Ho Hu) as (e' & He' & _ & Ha & _).
    congruence.
Qed.

(** Every returning call with neither Shift nor Control held leaves the
    bounding box of the origin and the anchor: [x] is the smaller of
    [anchor.x] and [origin.x], [y] the smaller of [anchor.y] and
    [origin.y], [w = |anchor.x - origin.x|], [h = |anchor.y - origin.y|].
    The call returns whenever there is a pointer event to read. *)
Lemma updateShape_plain_bbox
      (maybeEvent : option PointerEvent) (s : State) (o : Point) :
  origin s = Some o ->
  isShiftPressed s = false ->
  isCtrlPressed s = false ->
  (forall s', updateShape elementToImage maybeEvent s = Returned s' ->
     exists a,
       anchor s' = Some a /\
       x s' = JS.min (fst a) (fst o) /\
       y s' = JS.min (snd a) (snd o) /\
       w s' = JS.abs (fst a - fst o)%float /\
       h s' = JS.abs (snd a - snd o)%float) /\
  (forall e, eventInUse maybeEvent s = Some e ->
             exists s', updateShape elementToImage maybeEvent s = Returned s' /\
                        anchor s' =
                          Some (elementToImage (offsetX e) (offsetY e))).
Proof.
  intros Ho Hs Hc. split.
  - intros s' Hu.
    destruct (updateShape_drawing _ _ _ _ Ho Hu) as (e & _ & _ & Ha & Hr).
    exists (elementToImage (offsetX e) (offsetY e)).
    split; [exact Ha |].
    rewrite Hs, Hc in Hr.
    pose proof (rubberBand_plain_bbox o
                  (elementToImage (offsetX e) (offsetY e))) as Hb.
    rewrite <- Hr in Hb. exact Hb.
  - intros e He.
    destruct (updateShape_returns _ _ _ He) as [s' Hu].
    exists s'. split; [exact Hu |].
    destruct (updateShape_drawing _ _ _ _ Ho Hu) as (e' & He' & _ & Ha & _).
    congruence.
Qed.

(** With a drawing in progress and no pointer event seen yet, the call
    made by a key handler throws. *)
Lemma updateShape_no_event (s : State) (o : Point) :
  origin s = Some o ->
  lastMoveEvent s = None ->
  updateShape elementToImage None s = Threw s.
Proof.
  intros Ho Hl. unfold updateShape, eventInUse. rewrite Ho, Hl. reflexivity.
Qed.

(** *** [stopDrawing] and [onPointerUp] *)

Lemma stopDrawing_big (s : State) :
  JS.gtb (w s * h s) 15 = true ->
  stopDrawing s = (reset s, [Create (ellipseOf s)]).
Proof.
  intro H. unfold stopDrawing. rewrite H. reflexivity.
Qed.

Lemma stopDrawing_small (s : State) :
  JS.gtb (w s * h s) 15 = false ->
  stopDrawing s = (reset s, []).
Proof.
  intro H. unfold stopDrawing. rewrite H. reflexivity.
Qed.

(** C10.  [stopDrawing] dispatches a create event exactly when
    [w * h > 15], the product and the comparison being those of
    doubles; the shape it creates has [cx = x + w/2], [cy = y + h/2],
    [rx = w/2], [ry = h/2] and the bounds [(x, y, x + w, y + h)]; and in
    every case [origin], [anchor] and [lastMoveEvent] are undefined
    afterwards. *)
Theorem stopDrawing_create_iff (s : State) :
  ((exists e, In (Create e) (snd (stopDrawing s))) <->
   JS.gtb (w s * h s) 15 = true) /\
  (forall e, In (Create e) (snd (stopDrawing s)) ->
     snd (stopDrawing s) = [Create e] /\
     type e = ELLIPSE /\
     cx (geometry e) = (x s + w s / 2)%float /\
     cy (geometry e) = (y s + h s / 2)%float /\
     rx (geometry e) = (w s / 2)%float /\
     ry (geometry e) = (h s / 2)%float /\
     minX (bounds (geometry e)) = x s /\
     minY (bounds (geometry e)) = y s /\
     maxX (bounds (geometry e)) = (x s + w s)%float /\
     maxY (bounds (geometry e)) = (y s + h s)%float) /\
  origin (fst (stopDrawing s)) = None /\
  anchor (fst (stopDrawing s)) = None /\
  lastMoveEvent (fst (stopDrawing s)) = None.
Proof.
  destruct (JS.gtb (w s * h s) 15) eqn:Harea.
  - rewrite (stopDrawing_big s Harea). cbn [fst snd].
    split; [| split].
    + split; [intros _; reflexivity | intros _].
      exists (ellipseOf s). left; reflexivity.
    + intros e [He | []]. injection He as <-.
      repeat split; reflexivity.
    + repeat split; reflexivity.
  - rewrite (stopDrawing_small s Harea). cbn [fst snd].
    split; [| split].
    + split; [intros [e []] | discriminate].
    + intros e [].
    + repeat split; reflexivity.
Qed.


End ToolFacts.

(** *** Rounding at the centre and at the area threshold *)


(** A rectangle [1.6666666666666667] wide and [9] high: the product of
    the two doubles is 15, and nothing is created. *)
Lemma stopDrawing_rounded_area :
  (w MoreSamples.thinRectangle * h MoreSamples.thinRectangle = 15)%float /\
  stopDrawing MoreSamples.thinRectangle
  = (reset MoreSamples.thinRectangle, []).
Proof. split; reflexivity. Qed.

(** *** A drag followed by a key press *)

(** A pointer-down in 'drag' mode starts the drawing with the unit
    rectangle at the origin. *)
Lemma onPointerDown_starts_drag :
  onPointerDown Samples.pixelsOf drag (Samples.moveTo 10 10) 1000 initial
  = Samples.dragging false false.
Proof. reflexivity. Qed.

(** Control pressed before the pointer has moved: the flag is set, then
    [updateShape] throws and the unit rectangle stays. *)
Lemma onKeyDown_before_move :
  onKeyDown Samples.pixelsOf Control (Samples.dragging false false)
  = Threw (Samples.dragging false true).
Proof. reflexivity. Qed.

(** Control pressed after the pointer has moved to [(13, 4)]: the
    rectangle is recomputed around the origin [(10, 10)]. *)
Lemma onKeyDown_after_move :
  exists s1 s2,
    updateShape Samples.pixelsOf (Some (Samples.moveTo 13 4))
                (Samples.dragging false false) = Returned s1 /\
    onKeyDown Samples.pixelsOf Control s1 = Returned s2 /\
    (x s2 = 7 /\ y s2 = 4 /\ w s2 = 6 /\ h s2 = 12)%float.
Proof.
  do 2 eexists. split; [reflexivity |]. split; [reflexivity |].
  repeat split; reflexivity.
Qed.

(** C2 at a failing input.  In 'drag' mode a pointer-down at [(10, 10)]
    starts the drawing; Shift is pressed before the pointer has moved.
    [onKeyDown] sets the flag and calls [updateShape], which finds no
    event, throws at [evt!.offsetX] and assigns nothing: with Shift held
    the rectangle is still the unit square of the pointer-down, [w = h =
    1], while anchor and origin coincide and the larger of the two axis
    extents is 0. *)
Theorem onKeyDown_Shift_before_move :
  onPointerDown Samples.pixelsOf drag (Samples.moveTo 10 10) 1000 initial
  = Samples.dragging false false /\
  onKeyDown Samples.pixelsOf Shift (Samples.dragging false false)
  = Threw (Samples.dragging true false) /\
  isShiftPressed (Samples.dragging true false) = true /\
  origin (Samples.dragging true false) = Some (10, 10)%float /\
  anchor (Samples.dragging true false) = Some (10, 10)%float /\
  (w (Samples.dragging true false) = 1)%float /\
  (h (Samples.dragging true false) = 1)%float /\
  (JS.max (JS.abs (10 - 10)) (JS.abs (10 - 10)) = 0)%float.
Proof. repeat split; reflexivity. Qed.

(** C3 at a failing input.  Shift is held when the pointer-down at
    [(10, 10)] starts the drawing in 'drag' mode and is released before
    the pointer has moved.  [onKeyUp] clears the flag and calls
    [updateShape], which finds no event, throws at [evt!.offsetX] and
    assigns nothing: with neither modifier held the rectangle is still
    [(10, 10, 1, 1)], while the bounding box of origin and anchor has
    [w = |10 - 10| = 0] and [h = 0]. *)
Theorem onKeyUp_Shift_before_move :
  RubberbandEllipseRun.run Samples.pixelsOf drag
    [RubberbandEllipseRun.KeyDown Shift;
     RubberbandEllipseRun.PointerDown (Samples.moveTo 10 10) 1000] initial
  = (Samples.dragging true false, []) /\
  onKeyUp Samples.pixelsOf Shift (Samples.dragging true false)
  = Threw (Samples.dragging false false) /\
  isShiftPressed (Samples.dragging false false) = false /\
  isCtrlPressed (Samples.dragging false false) = false /\
  origin (Samples.dragging false false) = Some (10, 10)%float /\
  anchor (Samples.dragging false false) = Some (10, 10)%float /\
  (x (Samples.dragging false false) = 10)%float /\
  (y (Samples.dragging false false) = 10)%float /\
  (w (Samples.dragging false false) = 1)%float /\
  (h (Samples.dragging false false) = 1)%float /\
  (JS.abs (10 - 10) = 0)%float.
Proof. repeat split; reflexivity. Qed.

End RubberbandEllipseFacts.

(** ** Indexed array helpers *)

Module ArrFacts.
Import Arr.

Section Indexed.
Context {A B : Type}.

Lemma mapi_from_length (f : A -> nat -> B) (l : list A) :
  forall k, length (mapi_from f k l) = length l.
Proof.
  induction l as [| a r IH]; intro k; simpl; [reflexivity |].
  now rewrite IH.
Qed.

Lemma mapi_from_nth (f : A -> nat -> B) (l : list A) :
  forall k i a,
    nth_error l i = Some a ->
    nth_error (mapi_from f k l) i = Some (f a (k + i)%nat).
Proof.
  induction l as [| b r IH]; intros k [| i] a H; simpl in *;
    try discriminate.
  - injection H as ->. now rewrite Nat.add_0_r.
  - rewrite (IH (S k) i a H). f_equal. f_equal. lia.
Qed.

Lemma filteri_from_none (f : A -> nat -> bool) (l : list A) :
  forall k,
    (forall a i, (k <= i)%nat -> f a i = false) ->
    filteri_from f k l = [].
Proof.
  induction l as [| a r IH]; intros k H; simpl; [reflexivity |].
  rewrite (H a k (le_n k)). apply IH. intros b i Hi. apply H. lia.
Qed.

Lemma filteri_from_negb_length (f : A -> nat -> bool) (l : list A) :
  forall k,
    (length (filteri_from f k l)
     + length (filteri_from (fun a i => negb (f a i)) k l))%nat
    = length l.
Proof.
  induction l as [| a r IH]; intro k; simpl; [reflexivity |].
  specialize (IH (S k)). destruct (f a k); simpl; lia.
Qed.

Lemma filteri_from_orb_length (f g : A -> nat -> bool) (l : list A) :
  forall k,
    (length (filteri_from (fun a i => f a i || g a i) k l)
     <= length (filteri_from f k l) + length (filteri_from g k l))%nat.
Proof.
  induction l as [| a r IH]; intro k; simpl; [lia |].
  specialize (IH (S k)). destruct (f a k), (g a k); simpl; lia.
Qed.

(** At most one position carries a given index. *)
Lemma filteri_from_index_length (j : nat) (l : list A) :
  forall k,
    (length (filteri_from (fun _ i => Nat.eqb i j) k l) <= 1)%nat.
Proof.
  induction l as [| a r IH]; intro k; simpl; [lia |].
  destruct (Nat.eqb_spec k j) as [-> | Hne]; [| apply IH].
  rewrite filteri_from_none; [simpl; lia |].
  intros b i Hi. apply Nat.eqb_neq. lia.
Qed.

(** Removing by index drops no more elements than there are indices. *)
Lemma filteri_from_includes_length (sel : list nat) (l : list A) :
  forall k,
    (length (filteri_from (fun _ i => includes sel i) k l)
     <= length sel)%nat.
Proof.
  induction sel as [| j sel IH]; intro k.
  - rewrite filteri_from_none; [simpl; lia | reflexivity].
  - change (fun (_ : A) (i : nat) => includes (j :: sel) i)
      with (fun (_ : A) (i : nat) => Nat.eqb i j || includes sel i).
    pose proof (filteri_from_orb_length
                  (fun _ i => Nat.eqb i j) (fun _ i => includes sel i) l k).
    pose proof (filteri_from_index_length j l k).
    specialize (IH k). simpl. lia.
Qed.

Lemma filteri_keeps_length (sel : list nat) (l : list A) :
  (length l
   <= length (filteri (fun _ i => negb (includes sel i)) l) + length sel)%nat.
Proof.
  unfold filteri.
  pose proof (filteri_from_negb_length (fun _ i => includes sel i) l 0).
  pose proof (filteri_from_includes_length sel l 0).
  lia.
Qed.

(** [filter] with the index is [filter] on the array paired with its
    indices. *)
Lemma filteri_from_combine (f : A -> nat -> bool) (l : list A) :
  forall k,
    filteri_from f k l =
    map snd (filter (fun ia => f (snd ia) (fst ia))
                    (combine (seq k (length l)) l)).
Proof.
  induction l as [| a r IH]; intro k; simpl; [reflexivity |].
  rewrite IH. destruct (f a k); reflexivity.
Qed.
End Indexed.

Lemma includes_In (sel : list nat) (i : nat) :
  includes sel i = true <-> In i sel.
Proof.
  unfold includes. rewrite existsb_exists. split.
  - intros [j [Hj E]]. apply Nat.eqb_eq in E. now subst.
  - intro H. exists i. split; [exact H | apply Nat.eqb_refl].
Qed.

Lemma includes_not_In (sel : list nat) (i : nat) :
  includes sel i = false <-> ~ In i sel.
Proof.
  rewrite <- includes_In. destruct (includes sel i); split; congruence.
Qed.

End ArrFacts.

(** ** The line editor *)

Module LineEditorFacts.
Import Arr LineEditor.

Section EditorFacts.

Variable isTouch : bool.
Variable sqrt : Q -> Q.
Variable boundsFromPoints : list Point -> Bounds.
Variable viewportScale : Q.

(** *** Midpoints *)

(** The reduction over the corners from position [length pre] on appends
    one midpoint per pair of adjacent corners, and never throws. *)
Lemma reduce_midpoints (pts : list Point) :
  forall (suf pre : list Point) (acc : list Midpoint),
    pts = pre ++ suf ->
    exists ms,
      reduce_from (midpointStep sqrt viewportScale pts) (length pre) suf acc
        = Some (acc ++ ms) /\
      length ms = (length suf - 1)%nat /\
      forall i p q,
        nth_error suf i = Some p ->
        nth_error suf (S i) = Some q ->
        exists m,
          nth_error ms i = Some m /\
          point m = ((fst p + fst q) / 2, (snd p + snd q) / 2).
Proof.
  induction suf as [| a r IH]; intros pre acc Hpts.
  - exists []. rewrite app_nil_r. repeat split.
    intros [| i] p q H; discriminate.
  - assert (Hlen : length pts = (length pre + S (length r))%nat)
      by (rewrite Hpts, length_app; reflexivity).
    cbn [reduce_from]. unfold midpointStep at 1.
    destruct r as [| b r'].
    + replace (Nat.eqb (length pre) (length pts - 1)) with true
        by (symmetry; apply Nat.eqb_eq; simpl in Hlen; lia).
      exists []. rewrite app_nil_r. repeat split.
      intros [| [| i]] p q H1 H2; discriminate.
    + replace (Nat.eqb (length pre) (length pts - 1)) with false
        by (symmetry; apply Nat.eqb_neq; simpl in Hlen; lia).
      assert (Hnext : nth_error pts (length pre + 1) = Some b).
      { rewrite Hpts, nth_error_app2 by lia.
        replace (length pre + 1 - length pre)%nat with 1%nat by lia.
        reflexivity. }
      rewrite Hnext.
      match goal with
      | |- context [acc ++ [?m0]] => set (m := m0)
      end.
      destruct (IH (pre ++ [a]) (acc ++ [m])) as (ms & Hred & Hl & Hnth).
      { rewrite <- app_assoc. exact Hpts. }
      rewrite length_app, Nat.add_1_r in Hred.
      exists (m :: ms). split; [| split].
      * rewrite Hred, <- app_assoc. reflexivity.
      * simpl in *. lia.
      * intros [| i] p q Hp Hq.
        -- simpl in Hp, Hq. injection Hp as <-. injection Hq as <-.
           exists m. split; reflexivity.
        -- apply (Hnth i p q Hp Hq).
Qed.

Lemma midpoints_touch (s : State) :
  midpoints true sqrt viewportScale s = Some [].
Proof. reflexivity. Qed.

(** C4.  On a non-touch device, for a polyline of [n >= 2] points, the
    midpoints list is computed, has exactly [n - 1] entries, and entry
    [i] lies at the arithmetic mean of the corners [i] and [i + 1]. *)
Theorem midpoints_between (s : State) :
  (2 <= length (points (geom s)))%nat ->
  exists ms,
    midpoints false sqrt viewportScale s = Some ms /\
    length ms = (length (points (geom s)) - 1)%nat /\
    forall i p q,
      nth_error (points (geom s)) i = Some p ->
      nth_error (points (geom s)) (i + 1) = Some q ->
      exists m,
        nth_error ms i = Some m /\
        point m = ((fst p + fst q) / 2, (snd p + snd q) / 2).
Proof.
  intros _.
  destruct (reduce_midpoints (points (geom s)) (points (geom s)) [] [])
    as (ms & Hred & Hl & Hnth); [reflexivity |].
  exists ms. split; [exact Hred | split; [exact Hl |]].
  intros i p q Hp Hq. rewrite Nat.add_1_r in Hq.
  destruct (Hnth i p q Hp Hq) as (m & Hm & Hpt).
  exists m. split; [exact Hm | exact Hpt].
Qed.

(** Whatever the device, a midpoint at index [i] sits between two
    corners. *)
Lemma midpoints_index (s : State) (ms : list Midpoint) (i : nat) (m : Midpoint) :
  midpoints isTouch sqrt viewportScale s = Some ms ->
  nth_error ms i = Some m ->
  (i + 1 < length (points (geom s)))%nat.
Proof.
  intros Hms Hm. unfold midpoints in Hms. destruct isTouch.
  - injection Hms as <-. destruct i; discriminate.
  - destruct (reduce_midpoints (points (geom s)) (points (geom s)) [] [])
      as (ms' & Hred & Hl & _); [reflexivity |].
    unfold reduce in Hms. simpl in Hred. rewrite Hred in Hms.
    injection Hms as <-.
    assert (i < length ms')%nat by (apply nth_error_Some; congruence).
    lia.
Qed.


(** *** Inserting a point *)

(** C5.  For an insertion index [i] at which a midpoint is defined,
    [onAddPoint i] dispatches a change event whose point list is the
    original one with [midpoints[i].point] inserted at position [i + 1]:
    the points up to [i] and the points after it keep their order, and
    the list is longer by exactly one. *)
Theorem onAddPoint_inserts
        (i : nat) (point' : option Point) (s : State)
        (ms : list Midpoint) (m : Midpoint) :
  midpoints isTouch sqrt viewportScale s = Some ms ->
  nth_error ms i = Some m ->
  exists l,
    onAddPoint isTouch sqrt boundsFromPoints viewportScale i point' s
      = Some [StopPropagation; Change l] /\
    points (geometry l)
      = firstn (i + 1) (points (geom s)) ++ point m
          :: skipn (i + 1) (points (geom s)) /\
    length (points (geometry l)) = S (length (points (geom s))) /\
    nth_error (points (geometry l)) (i + 1) = Some (point m) /\
    (forall j, (j <= i)%nat ->
       nth_error (points (geometry l)) j = nth_error (points (geom s)) j) /\
    (forall j, (i < j)%nat ->
       nth_error (points (geometry l)) (S j) = nth_error (points (geom s)) j).
Proof.
  intros Hms Hm.
  pose proof (midpoints_index s ms i m Hms Hm) as Hi.
  unfold onAddPoint. rewrite Hms, Hm.
  eexists. split; [reflexivity |].
  cbn [geometry with_geometry points]. unfold slice_to, slice_from.
  set (pts := points (geom s)) in *.
  assert (Hf : length (firstn (i + 1) pts) = (i + 1)%nat)
    by (rewrite length_firstn; lia).
  split; [reflexivity |]. split; [| split; [| split]].
  - rewrite length_app. cbn [app length]. rewrite Hf, length_skipn. lia.
  - rewrite nth_error_app2 by lia. rewrite Hf, Nat.sub_diag. reflexivity.
  - intros j Hj. rewrite nth_error_app1 by lia.
    rewrite nth_error_firstn.
    replace (Nat.ltb j (i + 1)) with true
      by (symmetry; apply Nat.ltb_lt; lia).
    reflexivity.
  - intros j Hj. rewrite nth_error_app2 by lia. rewrite Hf.
    replace (S j - (i + 1))%nat with (S (j - (i + 1))) by lia.
    cbn [app nth_error]. rewrite nth_error_skipn. f_equal. lia.
Qed.


(** *** Click or drag *)



(** *** Dragging several corners *)

(** C8.  With more than one corner selected, [editor] translates by the
    drag delta exactly the points whose index is in the selection and
    leaves every other point as it was, whatever the handle identifier;
    the geometry keeps its number of points. *)
Theorem editor_multi_select
        (s : State) (line : Line) (handle : string) (dx dy : Q) :
  (1 < length (selectedCorners s))%nat ->
  let pts := points (geometry line) in
  let pts' :=
    points (geometry (editor boundsFromPoints s line handle (dx, dy))) in
  length pts' = length pts /\
  forall i p,
    nth_error pts i = Some p ->
    (In i (selectedCorners s) ->
     nth_error pts' i = Some (fst p + dx, snd p + dy)) /\
    (~ In i (selectedCorners s) -> nth_error pts' i = Some p).
Proof.
  intros Hsel pts pts'. subst pts'. unfold editor.
  replace (Nat.ltb 1 (length (selectedCorners s))) with true
    by (symmetry; now apply Nat.ltb_lt).
  cbn [geometry with_geometry points]. fold pts. unfold mapi.
  split; [apply ArrFacts.mapi_from_length |].
  intros i p Hp.
  rewrite (ArrFacts.mapi_from_nth _ pts 0 i p Hp). cbn [Nat.add].
  split; intro Hin.
  - apply ArrFacts.includes_In in Hin. rewrite Hin. reflexivity.
  - apply ArrFacts.includes_not_In in Hin. rewrite Hin. reflexivity.
Qed.

(** *** Deleting the selected corners *)

Lemma filteri_remaining (sel : list nat) (pts : list Point) :
  filteri (fun _ i => negb (includes sel i)) pts
  = LineSpec.remainingPoints sel pts.
Proof.
  unfold filteri, LineSpec.remainingPoints.
  exact (ArrFacts.filteri_from_combine
           (fun (_ : Point) i => negb (includes sel i)) pts 0).
Qed.

(** C9.  [onDeleteSelected] dispatches a change event only when at least
    two points remain once the selected corners are removed, and the
    event carries exactly those points; when fewer than two would
    remain, nothing is dispatched and the shape and the selection are
    left as they were.  So every geometry it dispatches has at least two
    points. *)
Theorem onDeleteSelected_two_points (s : State) :
  let remaining :=
    LineSpec.remainingPoints (selectedCorners s) (points (geom s)) in
  (forall l, In (Change l) (snd (onDeleteSelected boundsFromPoints s)) ->
     points (geometry l) = remaining /\
     (2 <= length remaining)%nat /\
     (2 <= length (points (geometry l)))%nat) /\
  ((length remaining < 2)%nat ->
     onDeleteSelected boundsFromPoints s = (s, [])).
Proof.
  intro remaining. subst remaining.
  rewrite <- filteri_remaining.
  pose proof (ArrFacts.filteri_keeps_length
                (selectedCorners s) (points (geom s))) as Hkeep.
  unfold onDeleteSelected.
  destruct (Z.ltb_spec
              (Z.of_nat (length (points (geom s)))
               - Z.of_nat (length (selectedCorners s))) 2) as [Hlt | Hge].
  - split; [intros l [] | reflexivity].
  - cbn [fst snd]. split.
    + intros l [Hl | []]. injection Hl as <-.
      cbn [geometry with_geometry points].
      split; [reflexivity | split; lia].
    + intro Hfew. lia.
Qed.

End EditorFacts.

End LineEditorFacts.

(** * The theorems at concrete inputs *)

Module Witnesses.
Import Samples.

Section Ellipse.
Import RubberbandEllipse RubberbandEllipseFacts.


(** Shift and Control held, the cursor dragged to [(13, 4)]. *)
Lemma updateShape_shift_square_witness :
  origin (dragging true true) = Some (10, 10)%float /\
  isShiftPressed (dragging true true) = true /\
  exists s',
    updateShape pixelsOf (Some (moveTo 13 4)) (dragging true true)
      = Returned s' /\
    h s' = w s' /\
    rx (geometry (ellipseOf s')) = ry (geometry (ellipseOf s')).
Proof.
  split; [reflexivity | split; [reflexivity |]].
  destruct (updateShape_shift_square pixelsOf (Some (moveTo 13 4))
              (dragging true true) (10, 10)%float eq_refl eq_refl)
    as [Hc Hr].
  destruct (Hr (moveTo 13 4) eq_refl) as [s' [Hu _]].
  exists s'. split; [exact Hu |].
  destruct (Hc s' Hu) as (a & _ & Hh & _ & Hrx).
  split; [exact Hh | exact Hrx].
Defined.

(** No modifier held, the cursor dragged to [(13, 4)]. *)
Lemma updateShape_plain_bbox_witness :
  origin (dragging false false) = Some (10, 10)%float /\
  isShiftPressed (dragging false false) = false /\
  isCtrlPressed (dragging false false) = false /\
  exists s' a,
    updateShape pixelsOf (Some (moveTo 13 4)) (dragging false false)
      = Returned s' /\
    anchor s' = Some a /\
    (x s' = JS.min (fst a) 10 /\ y s' = JS.min (snd a) 10 /\
     w s' = JS.abs (fst a - 10) /\ h s' = JS.abs (snd a - 10))%float.
Proof.
  split; [reflexivity | split; [reflexivity | split; [reflexivity |]]].
  destruct (updateShape_plain_bbox pixelsOf (Some (moveTo 13 4))
              (dragging false false) (10, 10)%float eq_refl eq_refl eq_refl)
    as [Hc Hr].
  destruct (Hr (moveTo 13 4) eq_refl) as [s' [Hu _]].
  destruct (Hc s' Hu) as (a & Ha & Hbox).
  exists s', a. split; [exact Hu | split; [exact Ha | exact Hbox]].
Defined.

End Ellipse.

Section Line.
Import LineEditor LineEditorFacts.

Lemma midpoints_between_witness :
  (2 <= length (points (geom zigzag)))%nat /\
  exists ms,
    midpoints false approxSqrt 1 zigzag = Some ms /\
    length ms = 2%nat /\
    exists m,
      nth_error ms 1 = Some m /\
      point m = ((40 + 80) / 2, (60 + 0) / 2).
Proof.
  assert (H2 : (2 <= length (points (geom zigzag)))%nat) by (simpl; lia).
  split; [exact H2 |].
  destruct (midpoints_between approxSqrt 1 zigzag H2)
    as (ms & Hms & Hlen & Hnth).
  exists ms. split; [exact Hms | split; [exact Hlen |]].
  exact (Hnth 1%nat (40, 60) (80, 0) eq_refl eq_refl).
Defined.

Lemma onAddPoint_inserts_witness :
  let ms := [ mkMidpoint ((0 + 40) / 2, (0 + 60) / 2) true;
              mkMidpoint ((40 + 80) / 2, (60 + 0) / 2) true ] in
  midpoints false approxSqrt 1 zigzag = Some ms /\
  exists l,
    onAddPoint false approxSqrt boxOf 1 1 None zigzag
      = Some [StopPropagation; Change l] /\
    points (geometry l)
      = [(0, 0); (40, 60); ((40 + 80) / 2, (60 + 0) / 2); (80, 0)] /\
    length (points (geometry l)) = 4%nat.
Proof.
  intro ms.
  assert (Hms : midpoints false approxSqrt 1 zigzag = Some ms)
    by reflexivity.
  split; [exact Hms |].
  destruct (onAddPoint_inserts false approxSqrt boxOf 1 1 None zigzag ms
              (mkMidpoint ((40 + 80) / 2, (60 + 0) / 2) true)
              Hms eq_refl)
    as (l & Hadd & Hpts & Hlen & _).
  exists l. split; [exact Hadd | split; [exact Hpts | exact Hlen]].
Defined.

(** Corners 0 and 2 selected, the handle of corner 1 dragged by
    [(1, 1)]. *)
Lemma editor_multi_select_witness :
  (1 < length (selectedCorners zigzag))%nat /\
  let pts' :=
    points (geometry (editor boxOf zigzag (shape zigzag) "HANDLE-1" (1, 1)))
  in
  length pts' = 3%nat /\
  nth_error pts' 0 = Some (0 + 1, 0 + 1) /\
  nth_error pts' 1 = Some (40, 60).
Proof.
  assert (H1 : (1 < length (selectedCorners zigzag))%nat) by (simpl; lia).
  split; [exact H1 |].
  destruct (editor_multi_select boxOf zigzag (shape zigzag) "HANDLE-1" 1 1 H1)
    as [Hlen Hnth].
  split; [exact Hlen | split].
  - apply (Hnth 0%nat (0, 0) eq_refl). simpl. auto.
  - apply (Hnth 1%nat (40, 60) eq_refl). simpl. intros [H | [H | []]];
      discriminate.
Defined.
End Line.

End Witnesses.



(** * Further properties of the ellipse tool *)

Module RubberbandEllipseMore.
Import RubberbandEllipse RubberbandEllipseRun RubberbandEllipseFacts.

Section ToolMore.

Variable elementToImage : float -> float -> Point.

(** X2.  [updateShape] throws exactly when a drawing is in progress and
    there is neither an event argument nor a remembered move event; the
    state is then left as it was. *)
Theorem updateShape_throws_iff
        (maybeEvent : option PointerEvent) (s : State) :
  ((exists s', updateShape elementToImage maybeEvent s = Threw s') <->
   (origin s <> None /\ maybeEvent = None /\ lastMoveEvent s = None)) /\
  (forall s', updateShape elementToImage maybeEvent s = Threw s' -> s' = s).
Proof.
  unfold updateShape, eventInUse.
  destruct (origin s) as [o |], maybeEvent as [e |];
    try destruct (lastMoveEvent s) as [e' |];
    try destruct (rubberBand _ _ _ _) as [[[x' y'] w'] h'];
    (split; [split |]);
    try (intros [s' H]; discriminate);
    try (intros (H1 & H2 & H3); congruence);
    try (intros s' H; discriminate).
  - intros _. repeat split; congruence.
  - intros _. eauto.
  - intros s' H. congruence.
Qed.

(** X3.  Calling [updateShape] again without an event, as the key
    handlers do, changes nothing once a move event has been processed. *)
Theorem updateShape_refresh
        (e : PointerEvent) (s s' : State) :
  updateShape elementToImage (Some e) s = Returned s' ->
  updateShape elementToImage None s' = Returned s'.
Proof.
  unfold updateShape, eventInUse. destruct s as [o a x0 y0 w0 h0 sh ct lp lm].
  cbn [origin lastMoveEvent isShiftPressed isCtrlPressed].
  destruct o as [o |].
  - destruct (rubberBand sh ct o _) as [[[x' y'] w'] h'] eqn:Hr.
    intro H. injection H as <-. cbn -[rubberBand]. rewrite Hr. reflexivity.
  - intro H. injection H as <-. reflexivity.
Qed.

(** X4.  Pressing and releasing a modifier key that was up restores the
    state exactly, rectangle included, once a move event has been
    processed. *)
Theorem modifier_press_release
        (e : PointerEvent) (s s' : State) :
  updateShape elementToImage (Some e) s = Returned s' ->
  (isShiftPressed s' = false ->
   exists s1, onKeyDown elementToImage Shift s' = Returned s1 /\
              isShiftPressed s1 = true /\
              onKeyUp elementToImage Shift s1 = Returned s') /\
  (isCtrlPressed s' = false ->
   exists s1, onKeyDown elementToImage Control s' = Returned s1 /\
              isCtrlPressed s1 = true /\
              onKeyUp elementToImage Control s1 = Returned s').
Proof.
  unfold updateShape, onKeyDown, onKeyUp, updateShape, eventInUse.
  destruct s as [o a x0 y0 w0 h0 sh ct lp lm].
  cbn [origin lastMoveEvent isShiftPressed isCtrlPressed].
  destruct o as [o |].
  - destruct (rubberBand sh ct o _) as [[[x' y'] w'] h'] eqn:Hr.
    intro H. injection H as <-. cbn -[rubberBand].
    split; intros ->.
    + destruct (rubberBand true ct o _) as [[[x1 y1] w1] h1].
      eexists. split; [reflexivity |]. split; [reflexivity |].
      cbn -[rubberBand]. rewrite Hr. reflexivity.
    + destruct (rubberBand sh true o _) as [[[x1 y1] w1] h1].
      eexists. split; [reflexivity |]. split; [reflexivity |].
      cbn -[rubberBand]. rewrite Hr. reflexivity.
  - intro H. injection H as <-. cbn.
    split; intros ->; eexists; split; try reflexivity; split; reflexivity.
Qed.

(** *** Releasing the pointer *)



(** *** Sessions *)

Lemma wellFormed_startAt (p : Point) (s : State) : wellFormed (startAt p s).
Proof. exact I. Qed.

Lemma wellFormed_reset (s : State) : wellFormed (reset s).
Proof. exact I. Qed.

Lemma wellFormed_flags (s : State) (f : State -> State) :
  origin (f s) = origin s -> anchor (f s) = anchor s ->
  wellFormed s -> wellFormed (f s).
Proof.
  unfold wellFormed. intros -> ->. exact (fun H => H).
Qed.

Lemma updateShape_threw (maybeEvent : option PointerEvent) (s s' : State) :
  updateShape elementToImage maybeEvent s = Threw s' -> s' = s.
Proof.
  unfold updateShape. destruct (origin s).
  - destruct (eventInUse maybeEvent s); [| congruence].
    destruct (rubberBand _ _ _ _) as [[[x' y'] w'] h']. discriminate.
  - discriminate.
Qed.

Lemma wellFormed_updateShape (maybeEvent : option PointerEvent) (s : State) :
  wellFormed s ->
  wellFormed (settle (updateShape elementToImage maybeEvent s)).
Proof.
  intro Hwf.
  destruct (updateShape elementToImage maybeEvent s) as [s' | s'] eqn:Hu.
  - cbn [settle]. destruct (origin s) as [o |] eqn:Ho.
    + destruct (updateShape_drawing _ _ _ _ _ Ho Hu) as (e & _ & Ho' & Ha & _).
      unfold wellFormed. rewrite Ho', Ha. exact I.
    + unfold updateShape in Hu. rewrite Ho in Hu. injection Hu as <-.
      destruct maybeEvent; [| exact Hwf].
      apply (wellFormed_flags s (set_lastMoveEvent (Some p))); auto.
  - cbn [settle]. rewrite (updateShape_threw _ _ _ Hu). exact Hwf.
Qed.

Lemma wellFormed_dispatchEvent (mode : DrawingMode) (ev : Event) (s : State) :
  wellFormed s ->
  wellFormed (fst (dispatchEvent elementToImage mode ev s)).
Proof.
  intro Hwf. destruct ev as [evt now | evt | evt now | k | k]; cbn [dispatchEvent fst].
  - unfold onPointerDown. destruct (is_drag mode).
    + apply wellFormed_startAt.
    + apply (wellFormed_flags s (set_lastPointerDown now)); auto.
  - now apply wellFormed_updateShape.
  - unfold onPointerUp, stopDrawing.
    destruct (is_click mode).
    + destruct (elapsedOver 300 now s); [exact Hwf |].
      destruct (origin s); [apply wellFormed_reset | apply wellFormed_startAt].
    + destruct (origin s); [| exact Hwf].
      destruct (elapsedOver 300 now s || JS.gtb (w s * h s) 100);
        apply wellFormed_reset.
  - destruct k; cbn [onKeyDown]; try exact Hwf;
      apply wellFormed_updateShape;
      [apply (wellFormed_flags s (set_isShiftPressed true))
      | apply (wellFormed_flags s (set_isCtrlPressed true))]; auto.
  - destruct k; cbn [onKeyUp]; try exact Hwf;
      apply wellFormed_updateShape;
      [apply (wellFormed_flags s (set_isShiftPressed false))
      | apply (wellFormed_flags s (set_isCtrlPressed false))]; auto.
Qed.

(** An event creates an ellipse only from the rectangle of a drawing in
    progress whose area, as a product of doubles, exceeds 15. *)
Lemma dispatchEvent_creates (mode : DrawingMode) (ev : Event) (s : State)
      (e : Ellipse) :
  In (Create e) (snd (dispatchEvent elementToImage mode ev s)) ->
  origin s <> None /\ JS.gtb (w s * h s) 15 = true /\ e = ellipseOf s.
Proof.
  destruct ev as [evt now | evt | evt now | k | k]; cbn [dispatchEvent snd];
    try (intros []).
  unfold onPointerUp, stopDrawing.
  destruct (is_click mode).
  - destruct (elapsedOver 300 now s); [intros [] |].
    destruct (origin s); [| intros []].
    destruct (JS.gtb (w s * h s) 15) eqn:Hbig; [| intros []].
    intros [H | []]. injection H as <-. repeat split; congruence.
  - destruct (origin s); [| intros []].
    destruct (elapsedOver 300 now s || JS.gtb (w s * h s) 100); [| intros []].
    destruct (JS.gtb (w s * h s) 15) eqn:Hbig.
    + intros [H | [H | []]]; [discriminate |].
      injection H as <-. repeat split; congruence.
    + intros [H | []]; discriminate.
Qed.

(** X6.  Through any sequence of pointer and key events, in either drawing
    mode, [origin] and [anchor] stay defined together, and every ellipse
    the tool creates is the shape of [stopDrawing] for a rectangle
    [(x, y, w, h)] whose area [w * h], as a product of doubles, is above
    15. *)
Theorem run_wellFormed
        (mode : DrawingMode) (evs : list Event) (s : State) :
  wellFormed s ->
  wellFormed (fst (run elementToImage mode evs s)) /\
  forall e, In (Create e) (snd (run elementToImage mode evs s)) ->
    exists x0 y0 w0 h0,
      e = ellipseFrom x0 y0 w0 h0 /\ JS.gtb (w0 * h0) 15 = true.
Proof.
  revert s. induction evs as [| ev rest IH]; intros s Hwf.
  - split; [exact Hwf | intros e []].
  - cbn [run].
    pose proof (wellFormed_dispatchEvent mode ev s Hwf) as Hwf1.
    pose proof (dispatchEvent_creates mode ev s) as Hcr.
    destruct (dispatchEvent elementToImage mode ev s) as [s1 out1].
    cbn [fst snd] in Hwf1, Hcr.
    destruct (IH s1 Hwf1) as [Hwf2 Hout2].
    destruct (run elementToImage mode rest s1) as [s2 out2].
    cbn [fst snd] in *. split; [exact Hwf2 |].
    intros e Hin. apply in_app_or in Hin. destruct Hin as [Hin | Hin];
      [| exact (Hout2 e Hin)].
    destruct (Hcr e Hin) as (_ & Harea & ->).
    exists (x s), (y s), (w s), (h s). split; [reflexivity | exact Harea].
Qed.

(** *** Whole gestures *)


(** The rectangle of a state laid out by [rubberBand] with no modifier. *)
Lemma ellipseOf_bbox (s : State) (p q : Point) :
  (x s, y s, w s, h s) = rubberBand false false p q ->
  ellipseOf s
  = ellipseFrom (JS.min (fst q) (fst p)) (JS.min (snd q) (snd p))
                (JS.abs (fst q - fst p)) (JS.abs (snd q - snd p)) /\
  (w s * h s = JS.abs (fst q - fst p) * JS.abs (snd q - snd p))%float.
Proof.
  unfold rubberBand, ellipseOf. intro H.
  pose proof (f_equal (fun t => fst (fst (fst t))) H) as Hx.
  pose proof (f_equal (fun t => snd (fst (fst t))) H) as Hy.
  pose proof (f_equal (fun t => snd (fst t)) H) as Hw.
  pose proof (f_equal (fun t => snd t) H) as Hh.
  cbn [fst snd] in Hx, Hy, Hw, Hh. rewrite Hx, Hy, Hw, Hh.
  split; reflexivity.
Qed.


Lemma onPointerUp_click_result
      (evt : PointerEvent) (now t0 : Q) (s : State) :
  lastPointerDown s = Some t0 ->
  now - t0 <= 300 ->
  onPointerUp elementToImage click evt now s =
  match origin s with
  | Some _ => stopDrawing s
  | None => (startAt (elementToImage (offsetX evt) (offsetY evt)) s, [])
  end.
Proof.
  intros Hd Ht. unfold onPointerUp, is_click, elapsedOver. rewrite Hd.
  apply NumFacts.gtb_false in Ht. rewrite Ht. reflexivity.
Qed.

(** X8.  Two clicks with no modifier key held, in 'click' mode: a quick
    click at [p] (pointer-up within 300 milliseconds of the pointer-down)
    while nothing is being drawn, a move to [q], and a second quick click.
    The first click starts the drawing at the position of its pointer-up
    and the second ends it.  With [w = |q.x - p.x|], [h = |q.y - p.y|],
    [x = min(q.x, p.x)], [y = min(q.y, p.y)], one ellipse, the shape of
    [stopDrawing] for [(x, y, w, h)], is created exactly when the product
    [w * h] of doubles exceeds 15; propagation is never stopped. *)
Theorem click_gesture
        (e1 e2 e3 e4 e5 : PointerEvent) (t1 t2 t4 t5 : Q) (s : State) :
  origin s = None ->
  isShiftPressed s = false ->
  isCtrlPressed s = false ->
  t2 - t1 <= 300 ->
  t5 - t4 <= 300 ->
  let p := elementToImage (offsetX e2) (offsetY e2) in
  let q := elementToImage (offsetX e3) (offsetY e3) in
  let w0 := JS.abs (fst q - fst p) in
  let h0 := JS.abs (snd q - snd p) in
  let x0 := JS.min (fst q) (fst p) in
  let y0 := JS.min (snd q) (snd p) in
  let r := run elementToImage click
               [PointerDown e1 t1; PointerUp e2 t2; PointerMove e3;
                PointerDown e4 t4; PointerUp e5 t5] s in
  origin (fst r) = None /\
  (JS.gtb (w0 * h0) 15 = true ->
   snd r = [Create (ellipseFrom x0 y0 w0 h0)]) /\
  (JS.gtb (w0 * h0) 15 = false -> snd r = []).
Proof.
  intros Ho Hs Hc Ht12 Ht45 p q w0 h0 x0 y0 r. subst r.
  cbn [run dispatchEvent].
  set (s1 := onPointerDown elementToImage click e1 t1 s).
  assert (Ho1 : origin s1 = None) by exact Ho.
  rewrite (onPointerUp_click_result e2 t2 t1 s1 eq_refl Ht12), Ho1.
  fold p. set (s2 := startAt p s1).
  assert (Ho2 : origin s2 = Some p) by reflexivity.
  assert (Hs2 : isShiftPressed s2 = false) by exact Hs.
  assert (Hc2 : isCtrlPressed s2 = false) by exact Hc.
  destruct (updateShape_returns elementToImage (Some e3) s2 e3 eq_refl)
    as [s3 Hu].
  rewrite Hu. cbn [settle].
  destruct (updateShape_drawing _ _ _ _ _ Ho2 Hu) as (e & He & Ho3 & _ & Hr).
  injection He as <-. fold q in Hr. rewrite Hs2, Hc2 in Hr.
  set (s4 := onPointerDown elementToImage click e4 t4 s3).
  assert (Ho4 : origin s4 = Some p) by exact Ho3.
  assert (Hr4 : (x s4, y s4, w s4, h s4) = rubberBand false false p q)
    by exact Hr.
  rewrite (onPointerUp_click_result e5 t5 t4 s4 eq_refl Ht45), Ho4.
  destruct (ellipseOf_bbox s4 p q Hr4) as (Hshape & Harea).
  fold w0 h0 x0 y0 in Hshape, Harea.
  unfold stopDrawing. rewrite Harea, Hshape. cbn [fst snd app].
  split; [reflexivity |].
  destruct (JS.gtb (w0 * h0) 15); split; intro H;
    try reflexivity; discriminate.
Qed.

End ToolMore.

End RubberbandEllipseMore.

(** * Further properties of the line editor *)

Module LineEditorMore.
Import Arr LineEditor LineEditorHover LineEditorFacts.

(** *** Selecting corners by clicking *)

Section Selection.

Variable isTouch : bool.

(** The pointer-up counts as a click: not a touch device, a pointer-down
    recorded at a non-zero time [t0], and at most [CLICK_THRESHOLD]
    milliseconds passed. *)
Lemma onHandlePointerUp_registered
      (idx : nat) (evt : PointerEvent) (now t0 : Q) (s : State) :
  isTouch = false ->
  lastHandleClick s = Some t0 ->
  ~ t0 == 0 ->
  now - t0 <= CLICK_THRESHOLD ->
  onHandlePointerUp isTouch idx evt now s =
  (set_selectedCorners
     (if metaKey evt || ctrlKey evt || shiftKey evt then
        if includes (selectedCorners s) idx
        then filter (fun i => negb (Nat.eqb i idx)) (selectedCorners s)
        else selectedCorners s ++ [idx]
      else
        if includes (selectedCorners s) idx
           && Nat.ltb 1 (length (selectedCorners s)) then [idx]
        else if includes (selectedCorners s) idx then []
        else [idx]) s,
   [ReclaimFocus]).
Proof.
  intros -> Hl Hz Ht. unfold onHandlePointerUp, noHandleClick, isDrag.
  rewrite Hl.
  replace (Qeq_bool t0 0) with false
    by (symmetry; apply not_true_is_false; intro E;
        apply Qeq_bool_iff in E; contradiction).
  apply NumFacts.gtb_false in Ht. rewrite Ht. reflexivity.
Qed.

(** X9.  A click on a corner handle with Meta, Control or Shift held
    toggles that corner in the selection and leaves the membership of
    every other corner as it was. *)
Theorem modifier_click_toggles
        (idx : nat) (evt : PointerEvent) (now t0 : Q) (s : State) :
  isTouch = false ->
  lastHandleClick s = Some t0 ->
  ~ t0 == 0 ->
  now - t0 <= CLICK_THRESHOLD ->
  metaKey evt || ctrlKey evt || shiftKey evt = true ->
  let sel' := selectedCorners (fst (onHandlePointerUp isTouch idx evt now s)) in
  (In idx sel' <-> ~ In idx (selectedCorners s)) /\
  (forall j, j <> idx -> (In j sel' <-> In j (selectedCorners s))).
Proof.
  intros Htouch Hl Hz Ht Hmod sel'. subst sel'.
  rewrite (onHandlePointerUp_registered idx evt now t0 s Htouch Hl Hz Ht).
  rewrite Hmod. cbn [fst selectedCorners set_selectedCorners].
  destruct (includes (selectedCorners s) idx) eqn:Hin.
  - apply ArrFacts.includes_In in Hin. split.
    + rewrite filter_In, Nat.eqb_refl. cbn. intuition discriminate.
    + intros j Hj. rewrite filter_In.
      apply Nat.eqb_neq in Hj. rewrite Hj. cbn. tauto.
  - apply ArrFacts.includes_not_In in Hin. split.
    + rewrite in_app_iff. cbn. tauto.
    + intros j Hj. rewrite in_app_iff. cbn. intuition congruence.
Qed.

(** X10.  A click on a corner handle with no modifier held deselects the
    corner when it is the only selected one, and otherwise makes it the
    whole selection. *)
Theorem plain_click_selects
        (idx : nat) (evt : PointerEvent) (now t0 : Q) (s : State) :
  isTouch = false ->
  lastHandleClick s = Some t0 ->
  ~ t0 == 0 ->
  now - t0 <= CLICK_THRESHOLD ->
  metaKey evt || ctrlKey evt || shiftKey evt = false ->
  let sel' := selectedCorners (fst (onHandlePointerUp isTouch idx evt now s)) in
  (In idx (selectedCorners s) /\ (length (selectedCorners s) <= 1)%nat ->
   sel' = []) /\
  (~ In idx (selectedCorners s) \/ (1 < length (selectedCorners s))%nat ->
   sel' = [idx]).
Proof.
  intros Htouch Hl Hz Ht Hmod sel'. subst sel'.
  rewrite (onHandlePointerUp_registered idx evt now t0 s Htouch Hl Hz Ht).
  rewrite Hmod. cbn [fst selectedCorners set_selectedCorners].
  destruct (includes (selectedCorners s) idx) eqn:Hin;
    [apply ArrFacts.includes_In in Hin | apply ArrFacts.includes_not_In in Hin];
    destruct (Nat.ltb_spec 1 (length (selectedCorners s))) as [Hlen | Hlen];
    cbn [andb]; split; intro H; try reflexivity; try tauto; try lia;
    destruct H; try contradiction; lia.
Qed.

(** X11.  On a device that is not a touch device, a pointer-up within
    [CLICK_THRESHOLD] of a pointer-down recorded at a non-zero time always
    changes the selection; on a touch device no pointer-up ever does. *)
Theorem click_changes_selection
        (idx : nat) (evt : PointerEvent) (now : Q) (s : State) :
  (forall t0,
     isTouch = false ->
     lastHandleClick s = Some t0 -> ~ t0 == 0 -> now - t0 <= CLICK_THRESHOLD ->
     selectedCorners (fst (onHandlePointerUp isTouch idx evt now s))
     <> selectedCorners s) /\
  (isTouch = true -> onHandlePointerUp isTouch idx evt now s = (s, [])).
Proof.
  split.
  - intros t0 Htouch Hl Hz Ht.
    rewrite (onHandlePointerUp_registered idx evt now t0 s Htouch Hl Hz Ht).
    cbn [fst selectedCorners set_selectedCorners].
    destruct (includes (selectedCorners s) idx) eqn:Hin.
    + apply ArrFacts.includes_In in Hin.
      destruct (metaKey evt || ctrlKey evt || shiftKey evt).
      * intro E. rewrite <- E in Hin. apply filter_In in Hin.
        rewrite Nat.eqb_refl in Hin. destruct Hin; discriminate.
      * destruct (Nat.ltb_spec 1 (length (selectedCorners s))) as [Hlen | Hlen];
          cbn [andb]; intro E; rewrite <- E in *; cbn in *; lia.
    + apply ArrFacts.includes_not_In in Hin.
      destruct (metaKey evt || ctrlKey evt || shiftKey evt); cbn [andb].
      * intro E. apply (f_equal (@length nat)) in E.
        rewrite length_app in E. cbn in E. lia.
      * intro E. rewrite <- E in Hin. apply Hin. left. reflexivity.
  - intros ->. unfold onHandlePointerUp. rewrite orb_true_r. reflexivity.
Qed.

(** X12.  Whatever a pointer-up on the handle of an existing corner does,
    the selection stays a duplicate-free list of existing corner
    indices. *)
Theorem onHandlePointerUp_keeps_selection_valid
        (idx n : nat) (evt : PointerEvent) (now : Q) (s : State) :
  (idx < n)%nat ->
  NoDup (selectedCorners s) ->
  Forall (fun j => (j < n)%nat) (selectedCorners s) ->
  let sel' := selectedCorners (fst (onHandlePointerUp isTouch idx evt now s)) in
  NoDup sel' /\ Forall (fun j => (j < n)%nat) sel'.
Proof.
  intros Hidx Hnd Hr sel'. subst sel'. unfold onHandlePointerUp.
  destruct (noHandleClick s || isTouch); [split; assumption |].
  destruct (isDrag now s); [split; assumption |].
  cbn [fst selectedCorners set_selectedCorners].
  assert (Hone : NoDup [idx] /\ Forall (fun j => (j < n)%nat) [idx]).
  { split; [repeat constructor; intros [] | repeat constructor; exact Hidx]. }
  assert (Hnil : NoDup (@nil nat) /\ Forall (fun j => (j < n)%nat) []).
  { split; constructor. }
  destruct (metaKey evt || ctrlKey evt || shiftKey evt).
  - destruct (includes (selectedCorners s) idx) eqn:Hin.
    + split; [now apply NoDup_filter |].
      rewrite Forall_forall in *. intros j Hj. apply filter_In in Hj.
      apply Hr. tauto.
    + apply ArrFacts.includes_not_In in Hin. split.
      * apply NoDup_app; [exact Hnd | apply Hone |].
        intros a Ha [<- | []]. contradiction.
      * apply Forall_app. split; [exact Hr | apply Hone].
  - destruct (includes (selectedCorners s) idx);
      destruct (Nat.ltb 1 (length (selectedCorners s)));
      cbn [andb]; assumption.
Qed.

End Selection.

(** *** Dragging one handle or the whole line *)

Lemma handleId_inj (i j : nat) : handleId i = handleId j -> i = j.
Proof.
  unfold handleId. cbn [String.append]. intro H. injection H as H.
  apply (f_equal NilEmpty.uint_of_string) in H.
  rewrite !NilEmpty.usu in H. injection H as H.
  apply (f_equal Nat.of_uint) in H. now rewrite !Unsigned.of_to in H.
Qed.

Lemma handleId_not_LINE (i : nat) : String.eqb (handleId i) "LINE" = false.
Proof. reflexivity. Qed.

Section Dragging.

Variable boundsFromPoints : list Point -> Bounds.

(** X13.  With at most one corner selected, dragging the handle of
    corner [k] moves that corner by the drag delta and no other point,
    selected or not; the number of points stays the same. *)
Theorem editor_single_handle
        (s : State) (line : Line) (k : nat) (dx dy : Q) :
  (length (selectedCorners s) <= 1)%nat ->
  let pts := points (geometry line) in
  let pts' :=
    points (geometry (editor boundsFromPoints s line (handleId k) (dx, dy))) in
  length pts' = length pts /\
  forall i p,
    nth_error pts i = Some p ->
    (i = k -> nth_error pts' i = Some (fst p + dx, snd p + dy)) /\
    (i <> k -> nth_error pts' i = Some p).
Proof.
  intros Hsel pts pts'. subst pts'. unfold editor.
  replace (Nat.ltb 1 (length (selectedCorners s))) with false
    by (symmetry; apply Nat.ltb_ge; exact Hsel).
  rewrite handleId_not_LINE.
  cbn [geometry with_geometry points]. fold pts. unfold mapi.
  split; [apply ArrFacts.mapi_from_length |].
  intros i p Hp.
  rewrite (ArrFacts.mapi_from_nth _ pts 0 i p Hp). cbn [Nat.add].
  split.
  - intros ->. rewrite String.eqb_refl. reflexivity.
  - intro Hne.
    destruct (String.eqb_spec (handleId k) (handleId i)) as [E | _];
      [| reflexivity].
    apply handleId_inj in E. congruence.
Qed.

(** X14.  With at most one corner selected, dragging the line itself
    moves every point by the drag delta. *)
Theorem editor_whole_line
        (s : State) (line : Line) (dx dy : Q) :
  (length (selectedCorners s) <= 1)%nat ->
  let pts := points (geometry line) in
  let pts' :=
    points (geometry (editor boundsFromPoints s line "LINE" (dx, dy))) in
  pts' = map (fun p => (fst p + dx, snd p + dy)) pts.
Proof.
  intros Hsel pts pts'. subst pts'. unfold editor.
  replace (Nat.ltb 1 (length (selectedCorners s))) with false
    by (symmetry; apply Nat.ltb_ge; exact Hsel).
  cbn [String.eqb Ascii.eqb Bool.eqb geometry with_geometry points].
  fold pts. unfold mapi. generalize 0%nat.
  induction pts as [| p r IH]; intro n; cbn [mapi_from map]; [reflexivity |].
  now rewrite IH.
Qed.

End Dragging.

(** *** Filtering by index *)

Section FilterIndex.
Context {A : Type}.

Lemma filteri_from_ext (f g : A -> nat -> bool) (l : list A) :
  forall k,
    (forall a i, (k <= i < k + length l)%nat -> f a i = g a i) ->
    filteri_from f k l = filteri_from g k l.
Proof.
  induction l as [| a r IH]; intros k H; cbn [filteri_from]; [reflexivity |].
  rewrite (H a k) by (cbn [length]; lia).
  rewrite (IH (S k)) by (intros b i Hi; apply H; cbn [length]; lia).
  reflexivity.
Qed.

Lemma filteri_from_true (l : list A) :
  forall k, filteri_from (fun _ _ => true) k l = l.
Proof.
  induction l as [| a r IH]; intro k; cbn [filteri_from]; [reflexivity |].
  now rewrite IH.
Qed.

Lemma filteri_from_false (l : list A) :
  forall k, filteri_from (fun _ _ => false) k l = [].
Proof.
  induction l as [| a r IH]; intro k; cbn [filteri_from]; [reflexivity |].
  apply IH.
Qed.

Lemma filteri_from_app (f : A -> nat -> bool) (l1 l2 : list A) :
  forall k,
    filteri_from f k (l1 ++ l2)
    = filteri_from f k l1 ++ filteri_from f (k + length l1) l2.
Proof.
  induction l1 as [| a r IH]; intro k; cbn [filteri_from app length].
  - now rewrite Nat.add_0_r.
  - rewrite IH. replace (S k + length r)%nat with (k + S (length r))%nat by lia.
    destruct (f a k); reflexivity.
Qed.

(** An index inside the array selects exactly one element. *)
Lemma filteri_from_index_one (j : nat) (l : list A) :
  forall k,
    (k <= j < k + length l)%nat ->
    length (filteri_from (fun _ i => Nat.eqb i j) k l) = 1%nat.
Proof.
  induction l as [| a r IH]; intros k H; cbn [length] in H; [lia |].
  cbn [filteri_from]. destruct (Nat.eqb_spec k j) as [-> | Hne].
  - rewrite (filteri_from_ext _ (fun _ _ => false));
      [now rewrite filteri_from_false |].
    intros b i Hi. apply Nat.eqb_neq. lia.
  - apply IH. lia.
Qed.

Lemma filteri_from_disjoint_length (f g : A -> nat -> bool) (l : list A) :
  forall k,
    (forall a i, f a i = true -> g a i = true -> False) ->
    length (filteri_from (fun a i => f a i || g a i) k l)
    = (length (filteri_from f k l) + length (filteri_from g k l))%nat.
Proof.
  intros k H. revert k.
  induction l as [| a r IH]; intro k; cbn [filteri_from]; [reflexivity |].
  specialize (IH (S k)). specialize (H a k).
  destruct (f a k), (g a k); cbn [orb length];
    solve [lia | exfalso; now apply H].
Qed.

(** Distinct indices inside the array select as many elements as there
    are indices. *)
Lemma filteri_from_includes_exact (sel : list nat) (l : list A) (k : nat) :
  NoDup sel ->
  Forall (fun j => (k <= j < k + length l)%nat) sel ->
  length (filteri_from (fun _ i => includes sel i) k l) = length sel.
Proof.
  induction sel as [| j sel IH]; intros Hnd Hr.
  - cbn [includes existsb]. now rewrite filteri_from_false.
  - inversion Hnd as [| ? ? Hj Hnd']; subst.
    inversion Hr as [| ? ? Hjr Hr']; subst.
    change (fun (_ : A) (i : nat) => includes (j :: sel) i)
      with (fun (_ : A) (i : nat) => Nat.eqb i j || includes sel i).
    rewrite (filteri_from_disjoint_length
               (fun _ i => Nat.eqb i j) (fun _ i => includes sel i)).
    + rewrite (filteri_from_index_one j l k Hjr), (IH Hnd' Hr'). reflexivity.
    + intros _ i E1 E2. apply Nat.eqb_eq in E1. subst i.
      apply ArrFacts.includes_In in E2. contradiction.
Qed.

End FilterIndex.

(** *** Deleting corners *)

Section Deleting.

Variable boundsFromPoints : list Point -> Bounds.

(** X15.  When the selection is a duplicate-free list of existing corner
    indices, [onDeleteSelected] removes exactly as many points as corners
    are selected: with at least two points left it dispatches the
    remaining points and clears the selection, otherwise it does
    nothing. *)
Theorem onDeleteSelected_exact (s : State) :
  NoDup (selectedCorners s) ->
  Forall (fun j => (j < length (points (geom s)))%nat) (selectedCorners s) ->
  let n := length (points (geom s)) in
  let k := length (selectedCorners s) in
  (k <= n)%nat /\
  ((k + 2 <= n)%nat ->
   exists l,
     onDeleteSelected boundsFromPoints s
       = (set_selectedCorners [] s, [Change l]) /\
     points (geometry l)
       = LineSpec.remainingPoints (selectedCorners s) (points (geom s)) /\
     (length (points (geometry l)) + k)%nat = n) /\
  ((n < k + 2)%nat -> onDeleteSelected boundsFromPoints s = (s, [])).
Proof.
  intros Hnd Hr n k. subst n k.
  assert (Hr0 : Forall (fun j => (0 <= j < 0 + length (points (geom s)))%nat)
                       (selectedCorners s)).
  { rewrite Forall_forall in *. intros j Hj. specialize (Hr j Hj). lia. }
  pose proof (filteri_from_includes_exact
                (selectedCorners s) (points (geom s)) 0 Hnd Hr0) as Hsel.
  pose proof (ArrFacts.filteri_from_negb_length
                (fun (_ : Point) i => includes (selectedCorners s) i)
                (points (geom s)) 0) as Hsum.
  cbn beta in Hsum. rewrite Hsel in Hsum.
  unfold onDeleteSelected.
  split; [lia | split].
  - intro Hk.
    destruct (Z.ltb_spec
                (Z.of_nat (length (points (geom s)))
                 - Z.of_nat (length (selectedCorners s))) 2) as [Hlt | Hge];
      [lia |].
    eexists. split; [reflexivity |].
    cbn [geometry with_geometry points]. split.
    + apply filteri_remaining.
    + unfold filteri. lia.
  - intro Hk.
    destruct (Z.ltb_spec
                (Z.of_nat (length (points (geom s)))
                 - Z.of_nat (length (selectedCorners s))) 2) as [Hlt | Hge];
      [reflexivity | lia].
Qed.

(** X16.  With nothing selected and at least two points,
    [onDeleteSelected] still dispatches a change event, carrying the
    points as they are. *)
Theorem onDeleteSelected_nothing_selected (s : State) :
  selectedCorners s = [] ->
  (2 <= length (points (geom s)))%nat ->
  onDeleteSelected boundsFromPoints s
  = (s, [Change (with_geometry (shape s)
                   {| points := points (geom s);
                      bounds := boundsFromPoints (points (geom s)) |})]).
Proof.
  intros Hsel Hn. unfold onDeleteSelected. rewrite Hsel.
  destruct (Z.ltb_spec
              (Z.of_nat (length (points (geom s))) - Z.of_nat (length (@nil nat)))
              2) as [Hlt | Hge]; [cbn in Hlt; lia |].
  unfold filteri. cbn [includes existsb negb].
  rewrite filteri_from_true.
  destruct s as [sh vm hh lc sel]. cbn in Hsel. subst sel. reflexivity.
Qed.

End Deleting.

(** *** Midpoints once more *)

Section Midpoints.

Variable isTouch : bool.
Variable sqrt : Q -> Q.
Variable boundsFromPoints : list Point -> Bounds.
Variable viewportScale : Q.

(** [midpoints] never throws. *)
Lemma midpoints_total (s : State) :
  exists ms,
    midpoints isTouch sqrt viewportScale s = Some ms /\
    length ms = if isTouch then 0%nat
                else (length (points (geom s)) - 1)%nat.
Proof.
  unfold midpoints. destruct isTouch; [exists []; split; reflexivity |].
  destruct (reduce_midpoints sqrt viewportScale
              (points (geom s)) (points (geom s)) [] [])
    as (ms & Hred & Hl & _); [reflexivity |].
  exists ms. split; [exact Hred | exact Hl].
Qed.

(** X17.  [midpoints] is always computed, and it is empty exactly on a
    touch device or for fewer than two points. *)
Theorem midpoints_empty_iff (s : State) :
  exists ms,
    midpoints isTouch sqrt viewportScale s = Some ms /\
    (ms = [] <-> isTouch = true \/ (length (points (geom s)) <= 1)%nat).
Proof.
  destruct (midpoints_total s) as (ms & Hms & Hlen).
  exists ms. split; [exact Hms |].
  rewrite <- length_zero_iff_nil, Hlen.
  destruct isTouch; [tauto |].
  split; [intro H; right; lia | intros [H | H]; [discriminate | lia]].
Qed.

(** *** Inserting without a midpoint *)

(** X19.  When no midpoint exists at the insertion index, [onAddPoint]
    inserts the fallback point it was given after position
    [insertionIndex]; on a device that is not a touch device such an
    index lies past the last midpoint and the point is appended at the
    end. *)
Theorem onAddPoint_fallback
        (i : nat) (p : Point) (s : State) (ms : list Midpoint) :
  midpoints isTouch sqrt viewportScale s = Some ms ->
  nth_error ms i = None ->
  exists l,
    onAddPoint isTouch sqrt boundsFromPoints viewportScale i (Some p) s
      = Some [StopPropagation; Change l] /\
    points (geometry l)
      = firstn (i + 1) (points (geom s)) ++ p :: skipn (i + 1) (points (geom s)) /\
    length (points (geometry l)) = S (length (points (geom s))) /\
    (isTouch = false -> points (geometry l) = points (geom s) ++ [p]).
Proof.
  intros Hms Hm. unfold onAddPoint. rewrite Hms, Hm.
  eexists. split; [reflexivity |].
  cbn [geometry with_geometry points]. unfold slice_to, slice_from.
  split; [reflexivity |]. split.
  - rewrite length_app. cbn [app length].
    rewrite length_firstn, length_skipn. lia.
  - intro Htouch.
    destruct (midpoints_total s) as (ms' & Hms' & Hlen).
    rewrite Hms in Hms'. injection Hms' as <-. rewrite Htouch in Hlen.
    apply nth_error_None in Hm.
    rewrite firstn_all2, skipn_all2 by lia. reflexivity.
Qed.

(** *** Inserting a corner and deleting it again *)

Lemma filteri_drop_inserted (pts : list Point) (p : Point) (k : nat) :
  (k <= length pts)%nat ->
  filteri (fun _ j => negb (includes [k] j)) (firstn k pts ++ p :: skipn k pts)
  = pts.
Proof.
  intro Hk. unfold filteri. rewrite filteri_from_app.
  assert (Hf : length (firstn k pts) = k) by (rewrite length_firstn; lia).
  rewrite Hf. cbn [filteri_from Nat.add includes existsb].
  rewrite Nat.eqb_refl. cbn [orb negb].
  rewrite (filteri_from_ext _ (fun _ _ => true) (firstn k pts) 0)
    by (intros a j Hj; rewrite Hf in Hj;
        replace (Nat.eqb j k) with false
          by (symmetry; apply Nat.eqb_neq; lia);
        reflexivity).
  rewrite (filteri_from_ext _ (fun _ _ => true) (skipn k pts) (S k))
    by (intros a j Hj;
        replace (Nat.eqb j k) with false
          by (symmetry; apply Nat.eqb_neq; lia);
        reflexivity).
  rewrite !filteri_from_true. apply firstn_skipn.
Qed.

(** X20.  With nothing selected: inserting the midpoint [i], having the
    host apply the change, clicking the new corner [i + 1] without a
    modifier and pressing Delete dispatches the original points again and
    leaves nothing selected. *)
Theorem insert_click_delete
        (i : nat) (evt : PointerEvent) (t0 t1 : Q) (s : State)
        (ms : list Midpoint) (m : Midpoint) :
  selectedCorners s = [] ->
  midpoints isTouch sqrt viewportScale s = Some ms ->
  nth_error ms i = Some m ->
  ~ t0 == 0 ->
  t1 - t0 <= CLICK_THRESHOLD ->
  metaKey evt || ctrlKey evt || shiftKey evt = false ->
  exists l l',
    onAddPoint isTouch sqrt boundsFromPoints viewportScale i None s
      = Some [StopPropagation; Change l] /\
    let s2 := fst (onHandlePointerDown t0 (withShape l s)) in
    let s3 := fst (onHandlePointerUp isTouch (i + 1) evt t1 s2) in
    selectedCorners s3 = [(i + 1)%nat] /\
    onKeydown isTouch boundsFromPoints "Delete" s3
      = (set_selectedCorners [] s3, [PreventDefault; Change l']) /\
    points (geometry l') = points (geom s).
Proof.
  intros Hsel Hms Hm Hz Ht Hmod.
  assert (Htouch : isTouch = false).
  { destruct isTouch; [| reflexivity].
    unfold midpoints in Hms. injection Hms as <-. destruct i; discriminate. }
  pose proof (midpoints_index isTouch sqrt viewportScale s ms i m Hms Hm) as Hi.
  set (pts' := firstn (i + 1) (points (geom s))
                 ++ point m :: skipn (i + 1) (points (geom s))).
  set (l := with_geometry (shape s)
              {| points := pts'; bounds := boundsFromPoints pts' |}).
  assert (Hadd : onAddPoint isTouch sqrt boundsFromPoints viewportScale i None s
                 = Some [StopPropagation; Change l]).
  { unfold onAddPoint. rewrite Hms, Hm. reflexivity. }
  assert (Hlen : length pts' = S (length (points (geom s)))).
  { unfold pts'. rewrite length_app. cbn [length].
    rewrite length_firstn, length_skipn. lia. }
  set (s2 := fst (onHandlePointerDown t0 (withShape l s))).
  assert (Hclick :
            onHandlePointerUp isTouch (i + 1) evt t1 s2
            = (set_selectedCorners [(i + 1)%nat] s2, [ReclaimFocus])).
  { rewrite (onHandlePointerUp_registered isTouch (i + 1) evt t1 t0 s2
               Htouch eq_refl Hz Ht).
    rewrite Hmod. subst s2.
    cbn [fst onHandlePointerDown withShape selectedCorners].
    rewrite Hsel. reflexivity. }
  eexists l, _. split; [exact Hadd |].
  cbv zeta. fold s2. rewrite Hclick. cbn [fst].
  split; [reflexivity |].
  unfold onKeydown. rewrite Htouch.
  cbn [String.eqb Ascii.eqb Bool.eqb orb].
  unfold onDeleteSelected.
  change (points (geom (set_selectedCorners [(i + 1)%nat] s2))) with pts'.
  change (selectedCorners (set_selectedCorners [(i + 1)%nat] s2))
    with [(i + 1)%nat].
  rewrite Hlen.
  destruct (Z.ltb_spec (Z.of_nat (S (length (points (geom s))))
                        - Z.of_nat (length [(i + 1)%nat])) 2)
    as [Hlt | Hge]; [cbn [length] in Hlt; lia |].
  split; [reflexivity |].
  cbn [geometry with_geometry points].
  apply filteri_drop_inserted. lia.
Qed.

End Midpoints.

(** *** Hovering *)

Lemma ltb_true (a b : Q) : LineEditorHover.ltb a b = true <-> a < b.
Proof.
  unfold LineEditorHover.ltb. rewrite negb_true_iff. split; intro H.
  - apply Qnot_le_lt. intro Hle. apply Qle_bool_iff in Hle. congruence.
  - destruct (Qle_bool b a) eqn:E; [| reflexivity].
    apply Qle_bool_iff in E. lra.
Qed.

Lemma ltb_false (a b : Q) : LineEditorHover.ltb a b = false <-> b <= a.
Proof.
  unfold LineEditorHover.ltb. rewrite negb_false_iff. apply Qle_bool_iff.
Qed.

(** Keeping the closer of two candidates along an array ends with a
    candidate that is at least as close as every other one. *)
Lemma fold_closest {A : Type} (g : A -> Q) (l : list A) :
  forall a,
    let r := fold_left (fun closest x =>
                          if LineEditorHover.ltb (g x) (g closest)
                          then x else closest) l a in
    In r (a :: l) /\ forall x, In x (a :: l) -> g r <= g x.
Proof.
  induction l as [| b t IH]; intro a; cbn [fold_left].
  - split; [left; reflexivity |]. intros x [<- | []]. lra.
  - destruct (IH (if LineEditorHover.ltb (g b) (g a) then b else a))
      as [Hin Hmin].
    cbv zeta. split.
    + destruct Hin as [E | Hin]; [| right; right; exact Hin].
      rewrite <- E. destruct (LineEditorHover.ltb (g b) (g a)); cbn; auto.
    + intros x Hx.
      pose proof (Hmin _ (or_introl eq_refl)) as Hhead.
      destruct (LineEditorHover.ltb (g b) (g a)) eqn:E;
        [apply ltb_true in E | apply ltb_false in E];
        destruct Hx as [<- | [<- | Hx]];
        try (apply Hmin; right; exact Hx); lra.
Qed.

Lemma reduce1_closest {A : Type} (g : A -> Q) (l : list A) :
  l <> [] ->
  exists r,
    reduce1 (fun closest x =>
               if LineEditorHover.ltb (g x) (g closest) then x else closest) l
      = Some r /\
    In r l /\ forall x, In x l -> g r <= g x.
Proof.
  destruct l as [| a t]; [congruence | intros _].
  eexists. split; [reflexivity |]. apply fold_closest.
Qed.

Lemma combine_seq_In {A : Type} (l : list A) (i : nat) (a : A) :
  forall k,
    In (i, a) (combine (seq k (length l)) l)
    <-> (k <= i)%nat /\ nth_error l (i - k) = Some a.
Proof.
  induction l as [| b t IH]; intro k; cbn [length seq combine In].
  - split; [intros [] | intros [_ H]]. destruct (i - k)%nat; discriminate.
  - rewrite IH. split.
    + intros [E | [Hk Hn]].
      * injection E as -> ->. rewrite Nat.sub_diag. auto.
      * split; [lia |].
        replace (i - k)%nat with (S (i - S k)) by lia. exact Hn.
    + intros [Hk Hn]. destruct (Nat.eq_dec i k) as [-> | Hne].
      * rewrite Nat.sub_diag in Hn. injection Hn as ->. auto.
      * right. split; [lia |].
        replace (i - k)%nat with (S (i - S k)) in Hn by lia. exact Hn.
Qed.

Lemma indexed_In (ms : list Midpoint) (i : nat) (m : Midpoint) :
  In (i, m) (indexed ms) <-> nth_error ms i = Some m.
Proof.
  unfold indexed. rewrite combine_seq_In, Nat.sub_0_r.
  split; [tauto | intro H; split; [lia | exact H]].
Qed.

Lemma existsb_visible (ms : list Midpoint) :
  existsb visible ms = true <->
  exists i m, nth_error ms i = Some m /\ visible m = true.
Proof.
  rewrite existsb_exists. split.
  - intros (m & Hin & Hv). apply In_nth_error in Hin. destruct Hin as [i Hi].
    eauto.
  - intros (i & m & Hi & Hv). exists m. split; [| exact Hv].
    eapply nth_error_In; eauto.
Qed.

Section Hovering.

Variable isTouch : bool.
Variable sqrt : Q -> Q.
Variable viewportScale : Q.
Variable elementToImage : Q -> Q -> Point.

(** The two ways [onPointerMove] ends. *)
Lemma onPointerMove_cases (evt : MoveEvent) (s : State) (ms : list Midpoint) :
  midpoints isTouch sqrt viewportScale s = Some ms ->
  let px := fst (elementToImage (offsetX evt) (offsetY evt)) in
  let py := snd (elementToImage (offsetX evt) (offsetY evt)) in
  let threshold := (MIN_HOVER_DISTANCE / viewportScale) ^ 2 in
  ((selectedCorners s <> [] \/ existsb visible ms = false) /\
   onPointerMove isTouch sqrt viewportScale elementToImage evt s
   = Some (set_visibleMidpoint None s))
  \/
  (selectedCorners s = [] /\ existsb visible ms = true /\
   exists corner i m,
     In corner (points (geom s)) /\
     (forall c, In c (points (geom s)) ->
                getDistSq px py corner <= getDistSq px py c) /\
     nth_error ms i = Some m /\ visible m = true /\
     (forall j m', nth_error ms j = Some m' -> visible m' = true ->
                   getDistSq px py (point m) <= getDistSq px py (point m')) /\
     onPointerMove isTouch sqrt viewportScale elementToImage evt s
     = Some (set_visibleMidpoint
               (if LineEditorHover.ltb (getDistSq px py corner) threshold
                   || LineEditorHover.ltb (getDistSq px py (point m)) threshold
                then Some i else None) s)).
Proof.
  intros Hms px py threshold. unfold onPointerMove. rewrite Hms.
  destruct (selectedCorners s) as [| c0 sel] eqn:Hsel.
  2: { left. split; [left; congruence | reflexivity]. }
  destruct (existsb visible ms) eqn:Hvis.
  2: { left. split; [right; reflexivity | reflexivity]. }
  right. split; [reflexivity | split; [reflexivity |]].
  cbn [length Nat.ltb Nat.leb orb negb].
  destruct (elementToImage (offsetX evt) (offsetY evt)) as [qx qy] eqn:Hq.
  subst px py. cbn [fst snd].
  apply existsb_visible in Hvis. destruct Hvis as (i0 & m0 & Hi0 & Hv0).
  assert (Hpts : points (geom s) <> []).
  { pose proof (midpoints_index isTouch sqrt viewportScale s ms i0 m0 Hms Hi0).
    intro E. rewrite E in H. cbn in H. lia. }
  assert (Hfil : filter (fun im => visible (snd im)) (indexed ms) <> []).
  { intro E. assert (Hin : In (i0, m0) (filter (fun im => visible (snd im))
                                           (indexed ms))).
    { apply filter_In. split; [now apply indexed_In | exact Hv0]. }
    rewrite E in Hin. exact Hin. }
  destruct (reduce1_closest (getDistSq qx qy) (points (geom s)) Hpts)
    as (corner & Hrc & Hcin & Hcmin).
  destruct (reduce1_closest (fun im => getDistSq qx qy (point (snd im)))
              (filter (fun im => visible (snd im)) (indexed ms)) Hfil)
    as ([i m] & Hrm & Hmin & Hmmin).
  rewrite Hrc, Hrm. cbn [fst snd] in *.
  apply filter_In in Hmin. destruct Hmin as [Hmin Hv]. cbn [snd] in Hv.
  apply indexed_In in Hmin.
  exists corner, i, m. repeat split; try assumption.
  intros j m' Hj Hv'.
  apply (Hmmin (j, m')). apply filter_In. split; [now apply indexed_In | exact Hv'].
Qed.

(** X21.  [onPointerMove] never throws and touches nothing but
    [visibleMidpoint]. *)
Theorem onPointerMove_total (evt : MoveEvent) (s : State) :
  exists v,
    onPointerMove isTouch sqrt viewportScale elementToImage evt s
    = Some (set_visibleMidpoint v s).
Proof.
  destruct (midpoints_total isTouch sqrt viewportScale s)
    as (ms & Hms & _).
  destruct (onPointerMove_cases evt s ms Hms)
    as [[_ H] | (_ & _ & corner & i & m & _ & _ & _ & _ & _ & H)];
    rewrite H; eauto.
Qed.



End Hovering.

End LineEditorMore.


(** * The further theorems at concrete inputs *)

Module MoreWitnesses.
Import Samples MoreSamples.

Section Ellipse.
Import RubberbandEllipse RubberbandEllipseRun RubberbandEllipseMore.

Lemma updateShape_refresh_witness :
  updateShape pixelsOf None (dragged true false)
  = Returned (dragged true false).
Proof.
  apply (updateShape_refresh pixelsOf (moveTo 13 4) (dragging true false)).
  reflexivity.
Defined.

Lemma modifier_press_release_witness :
  exists s1,
    onKeyDown pixelsOf Shift (dragged false false) = Returned s1 /\
    isShiftPressed s1 = true /\
    onKeyUp pixelsOf Shift s1 = Returned (dragged false false).
Proof.
  apply (modifier_press_release pixelsOf (moveTo 13 4) (dragging false false)
           (dragged false false) eq_refl).
  reflexivity.
Defined.


Lemma run_wellFormed_witness :
  wellFormed (fst (run pixelsOf drag longDrag initial)) /\
  forall e, In (Create e) (snd (run pixelsOf drag longDrag initial)) ->
    exists x0 y0 w0 h0,
      e = ellipseFrom x0 y0 w0 h0 /\ JS.gtb (w0 * h0) 15 = true.
Proof.
  exact (run_wellFormed pixelsOf drag longDrag initial I).
Defined.


Lemma click_gesture_witness :
  snd (run pixelsOf click
           [PointerDown (moveTo 10 10) 1000; PointerUp (moveTo 10 10) 1100;
            PointerMove (moveTo 40 30);
            PointerDown (moveTo 40 30) 3000; PointerUp (moveTo 40 30) 3100]
           initial)
  = [Create (ellipseFrom 10 10 30 20)].
Proof.
  destruct (click_gesture pixelsOf (moveTo 10 10) (moveTo 10 10) (moveTo 40 30)
              (moveTo 40 30) (moveTo 40 30) 1000 1100 3000 3100 initial
              eq_refl eq_refl eq_refl)
    as (_ & Hbig & _).
  { unfold Qle; simpl; lia. }
  { unfold Qle; simpl; lia. }
  apply Hbig. reflexivity.
Defined.

End Ellipse.

Section Line.
Import LineEditor LineEditorHover LineEditorMore.

Lemma pressed_time_nonzero : ~ 1000 == 0.
Proof. intro H. discriminate H. Defined.

Lemma pressed_in_time : 1100 - 1000 <= CLICK_THRESHOLD.
Proof. unfold Qle; simpl; lia. Defined.

(** Corners 0 and 2 selected, a Shift-click on corner 1. *)
Lemma modifier_click_toggles_witness :
  In 1%nat (selectedCorners
              (fst (onHandlePointerUp false 1 shiftClick 1100 pressed))) /\
  In 0%nat (selectedCorners
              (fst (onHandlePointerUp false 1 shiftClick 1100 pressed))).
Proof.
  destruct (modifier_click_toggles false 1 shiftClick 1100 1000 pressed
              eq_refl eq_refl pressed_time_nonzero pressed_in_time eq_refl)
    as [Hidx Hother].
  split.
  - apply Hidx. simpl. intros [H | [H | []]]; discriminate.
  - apply (Hother 0%nat); [discriminate | simpl; auto].
Defined.

(** Corners 0 and 2 selected, a plain click on corner 2. *)
Lemma plain_click_selects_witness :
  selectedCorners (fst (onHandlePointerUp false 2 plainClick 1100 pressed))
  = [2%nat].
Proof.
  destruct (plain_click_selects false 2 plainClick 1100 1000 pressed
              eq_refl eq_refl pressed_time_nonzero pressed_in_time eq_refl)
    as [_ Hsel].
  apply Hsel. right. simpl. lia.
Defined.

Lemma onHandlePointerUp_keeps_selection_valid_witness :
  NoDup (selectedCorners
           (fst (onHandlePointerUp false 1 shiftClick 1100 pressed))) /\
  Forall (fun j => (j < 3)%nat)
         (selectedCorners
            (fst (onHandlePointerUp false 1 shiftClick 1100 pressed))).
Proof.
  apply (onHandlePointerUp_keeps_selection_valid false 1 3 shiftClick 1100
           pressed).
  - lia.
  - repeat constructor; simpl; intuition discriminate.
  - repeat constructor.
Defined.

(** Nothing selected, the handle of corner 1 dragged by [(5, 7)]. *)
Lemma editor_single_handle_witness :
  nth_error
    (points (geometry (editor boxOf zigzagFree (shape zigzagFree)
                              (handleId 1) (5, 7)))) 1
  = Some (40 + 5, 60 + 7) /\
  nth_error
    (points (geometry (editor boxOf zigzagFree (shape zigzagFree)
                              (handleId 1) (5, 7)))) 2
  = Some (80, 0).
Proof.
  assert (H1 : (length (selectedCorners zigzagFree) <= 1)%nat) by (simpl; lia).
  destruct (editor_single_handle boxOf zigzagFree (shape zigzagFree) 1 5 7 H1)
    as [_ Hnth].
  split.
  - apply (Hnth 1%nat (40, 60) eq_refl). reflexivity.
  - apply (Hnth 2%nat (80, 0) eq_refl). discriminate.
Defined.

Lemma editor_whole_line_witness :
  points (geometry (editor boxOf zigzagFree (shape zigzagFree) "LINE" (5, 7)))
  = [(0 + 5, 0 + 7); (40 + 5, 60 + 7); (80 + 5, 0 + 7)].
Proof.
  assert (H1 : (length (selectedCorners zigzagFree) <= 1)%nat) by (simpl; lia).
  exact (editor_whole_line boxOf zigzagFree (shape zigzagFree) 5 7 H1).
Defined.

(** Two of three corners selected: nothing is deleted. *)
Lemma onDeleteSelected_exact_witness :
  onDeleteSelected boxOf zigzag = (zigzag, []).
Proof.
  assert (Hnd : NoDup (selectedCorners zigzag))
    by (repeat constructor; simpl; intuition discriminate).
  assert (Hr : Forall (fun j => (j < length (points (geom zigzag)))%nat)
                      (selectedCorners zigzag))
    by (repeat constructor).
  destruct (onDeleteSelected_exact boxOf zigzag Hnd Hr) as (_ & _ & Hfew).
  apply Hfew. simpl. lia.
Defined.

Lemma onDeleteSelected_nothing_selected_witness :
  exists l,
    onDeleteSelected boxOf zigzagFree = (zigzagFree, [Change l]) /\
    points (geometry l) = [(0, 0); (40, 60); (80, 0)].
Proof.
  assert (H2 : (2 <= length (points (geom zigzagFree)))%nat) by (simpl; lia).
  eexists. split.
  - exact (onDeleteSelected_nothing_selected boxOf zigzagFree eq_refl H2).
  - reflexivity.
Defined.

Lemma zigzag_midpoints :
  midpoints false approxSqrt 1 zigzagFree = Some zigzagMidpoints.
Proof. reflexivity. Defined.

(** No midpoint at index 5: the fallback point is appended. *)
Lemma onAddPoint_fallback_witness :
  exists l,
    onAddPoint false approxSqrt boxOf 1 5 (Some (90, 90)) zigzagFree
      = Some [StopPropagation; Change l] /\
    points (geometry l) = [(0, 0); (40, 60); (80, 0); (90, 90)].
Proof.
  destruct (onAddPoint_fallback false approxSqrt boxOf 1 5 (90, 90) zigzagFree
              zigzagMidpoints zigzag_midpoints eq_refl)
    as (l & Hadd & _ & _ & Happ).
  exists l. split; [exact Hadd | exact (Happ eq_refl)].
Defined.

Lemma insert_click_delete_witness :
  exists l l',
    onAddPoint false approxSqrt boxOf 1 0 None zigzagFree
      = Some [StopPropagation; Change l] /\
    onKeydown false boxOf "Delete"
      (fst (onHandlePointerUp false 1 plainClick 1100
              (fst (onHandlePointerDown 1000 (withShape l zigzagFree)))))
    = (set_selectedCorners []
         (fst (onHandlePointerUp false 1 plainClick 1100
                 (fst (onHandlePointerDown 1000 (withShape l zigzagFree))))),
       [PreventDefault; Change l']) /\
    points (geometry l') = [(0, 0); (40, 60); (80, 0)].
Proof.
  destruct (insert_click_delete false approxSqrt boxOf 1 0 plainClick
              1000 1100 zigzagFree zigzagMidpoints
              (mkMidpoint ((0 + 40) / 2, (0 + 60) / 2) true)
              eq_refl zigzag_midpoints eq_refl
              pressed_time_nonzero pressed_in_time eq_refl)
    as (l & l' & Hadd & _ & Hdel & Hpts).
  exists l, l'. split; [exact Hadd | split; [exact Hdel | exact Hpts]].
Defined.




End Line.

End MoreWitnesses.

